(** * The withdrawal countdown of the mixer front end

    A shallow embedding of [frontend/ts/routes/countdown.tsx]: the expiry
    computation on JavaScript [Date] values, the asynchronous [withdraw]
    routine with its [try]/[catch] and its effects, and the component's
    hook state with the two triggers (timer-driven and manual). *)

From Stdlib Require Import ZArith List String Bool Lia.
Import ListNotations.

Open Scope Z_scope.

(** ** JavaScript [Date]: time values and the local time zone

    A [Date] holds a time value, the number of milliseconds since the epoch
    in UTC.  The definitions follow the abstract operations of the language
    standard (Day, TimeWithinDay, MakeDay, MakeDate, LocalTime, UTC); finite
    time values only. *)
Module JsDate.

Definition msPerSecond : Z := 1000.
Definition msPerMinute : Z := 60000.
Definition msPerHour : Z := 3600000.
Definition msPerDay : Z := 86400000.

Definition Day (t : Z) : Z := t / msPerDay.
Definition TimeWithinDay (t : Z) : Z := t mod msPerDay.

Definition HourFromTime (t : Z) : Z := (t / msPerHour) mod 24.
Definition MinFromTime (t : Z) : Z := (t / msPerMinute) mod 60.
Definition SecFromTime (t : Z) : Z := (t / msPerSecond) mod 60.
Definition msFromTime (t : Z) : Z := t mod msPerSecond.

(** Day number of the first day of year [y]. *)
Definition DayFromYear (y : Z) : Z :=
  365 * (y - 1970) + (y - 1969) / 4 - (y - 1901) / 100 + (y - 1601) / 400.

Definition DaysInYear (y : Z) : Z := DayFromYear (y + 1) - DayFromYear y.

(** The year of day number [d]: the largest [y] with
    [DayFromYear y <= d]; a first guess from the mean year length is
    off by at most one. *)
Definition YearFromDay (d : Z) : Z :=
  let y0 := 1970 + (d * 400) / 146097 in
  if DayFromYear (y0 + 1) <=? d then y0 + 1
  else if DayFromYear y0 <=? d then y0
  else y0 - 1.

Definition YearFromTime (t : Z) : Z := YearFromDay (Day t).
Definition InLeapYear (t : Z) : Z := DaysInYear (YearFromTime t) - 365.
Definition DayWithinYear (t : Z) : Z := Day t - DayFromYear (YearFromTime t).

(** Day within the year on which month [m] (0 = January) starts;
    [leap] is 1 in a leap year and 0 otherwise. *)
Definition monthStart (m leap : Z) : Z :=
  if m =? 0 then 0
  else if m =? 1 then 31
  else if m =? 2 then 59 + leap
  else if m =? 3 then 90 + leap
  else if m =? 4 then 120 + leap
  else if m =? 5 then 151 + leap
  else if m =? 6 then 181 + leap
  else if m =? 7 then 212 + leap
  else if m =? 8 then 243 + leap
  else if m =? 9 then 273 + leap
  else if m =? 10 then 304 + leap
  else 334 + leap.

Definition MonthFromTime (t : Z) : Z :=
  let d := DayWithinYear t in
  let l := InLeapYear t in
  if d <? 31 then 0
  else if d <? 59 + l then 1
  else if d <? 90 + l then 2
  else if d <? 120 + l then 3
  else if d <? 151 + l then 4
  else if d <? 181 + l then 5
  else if d <? 212 + l then 6
  else if d <? 243 + l then 7
  else if d <? 273 + l then 8
  else if d <? 304 + l then 9
  else if d <? 334 + l then 10
  else 11.

(** Day of the month, 1-based. *)
Definition DateFromTime (t : Z) : Z :=
  DayWithinYear t - monthStart (MonthFromTime t) (InLeapYear t) + 1.

Definition MakeTime (hour min sec ms : Z) : Z :=
  hour * msPerHour + min * msPerMinute + sec * msPerSecond + ms.

(** Day number of the [date]-th day of month [month] of [year]; months
    outside 0..11 carry into the year, dates outside the month carry
    into the neighbouring months. *)
Definition MakeDay (year month date : Z) : Z :=
  let ym := year + month / 12 in
  let mn := month mod 12 in
  DayFromYear ym + monthStart mn (DaysInYear ym - 365) + date - 1.

Definition MakeDate (day time : Z) : Z := day * msPerDay + time.

(** A time zone gives the offset of local time from UTC at an instant:
    [LocalTZA t true] for a UTC time value [t], [LocalTZA t false] for a
    local one. *)
Definition TimeZone : Type := Z -> bool -> Z.

Section Local.
Variable LocalTZA : TimeZone.

Definition LocalTime (t : Z) : Z := t + LocalTZA t true.
Definition UTC (t : Z) : Z := t - LocalTZA t false.

(** [d.setUTCHours(h, m, s, ms)] *)
Definition setUTCHours (t hour min sec ms : Z) : Z :=
  MakeDate (Day t) (MakeTime hour min sec ms).

(** [d.getDate()] *)
Definition getDate (t : Z) : Z := DateFromTime (LocalTime t).

(** [d.setDate(date)] *)
Definition setDate (t date : Z) : Z :=
  let lt := LocalTime t in
  UTC (MakeDate (MakeDay (YearFromTime lt) (MonthFromTime lt) date)
                (TimeWithinDay lt)).

(** [d.getSeconds()] *)
Definition getSeconds (t : Z) : Z := SecFromTime (LocalTime t).

(** [d.setSeconds(sec)] *)
Definition setSeconds (t sec : Z) : Z :=
  let lt := LocalTime t in
  UTC (MakeDate (Day lt)
                (MakeTime (HourFromTime lt) (MinFromTime lt) sec
                          (msFromTime lt))).
End Local.

(** A zone without daylight saving: the same offset at every instant. *)
Definition fixedZone (offset : Z) : TimeZone := fun _ _ => offset.

(** US Eastern time around the two transitions of 2021: UTC-5 until
    14 March 07:00 UTC, UTC-4 until 7 November 06:00 UTC, UTC-5 after.
    A local time value that is skipped or repeated is read with the
    offset in force before the transition. *)
Definition usEastern2021 : TimeZone := fun t isUTC =>
  if isUTC then
    if t <? 1615705200000 then -5 * msPerHour
    else if t <? 1636264800000 then -4 * msPerHour
    else -5 * msPerHour
  else
    if t <? 1615690800000 then -5 * msPerHour
    else if t <? 1636250400000 then -4 * msPerHour
    else -5 * msPerHour.

End JsDate.

(** ** Configuration read from [exported_config] and [utils/ethAmts] *)
Record Config := {
  chainId : Z;
  deployedMixer : string;          (* config.chain.deployedAddresses.Mixer *)
  broadcasterAddress : string;     (* config.backend.broadcasterAddress *)
  endsAtMidnight : bool;           (* config.frontend.countdown.endsAtUtcMidnight *)
  endsAfterSecs : Z;               (* config.frontend.countdown.endsAfterSecs *)
  circuitPath : string;            (* config.frontend.snarks.paths.circuit *)
  provingKeyPath : string;         (* config.frontend.snarks.paths.provingKey *)
  verificationKeyPath : string;    (* config.frontend.snarks.paths.verificationKey *)
  feeAmtWei : Z
}.

(** ** The expiry instant (lines 252-267) *)
Module Expiry.
Import JsDate.

Section Zone.
Variable tz : TimeZone.

(** Lines 252-254: [new Date(identityStored.timestamp)], then
    [setUTCHours(0, 0, 0, 0)], then [setDate(getDate() + 1)]. *)
Definition midnightExpiry (timestamp : Z) : Z :=
  let e0 := timestamp in
  let e1 := setUTCHours e0 0 0 0 0 in
  setDate tz e1 (getDate tz e1 + 1).

(** Line 259: [firstLoadTime > expiryTimestamp]. *)
Definition midnightOver (timestamp firstLoadTime : Z) : bool :=
  midnightExpiry timestamp <? firstLoadTime.

(** Lines 263-266: [new Date()] moved [endsAfterSecs] seconds on. *)
Definition fixedDelayExpiry (cfg : Config) (now : Z) : Z :=
  setSeconds tz now (getSeconds tz now + endsAfterSecs cfg).

(** Lines 252-267: the [expiryTimestamp] handed to the timer; [now] is
    the clock reading of [new Date()] on line 263.  The lines are part of
    the body of the component, so they are run again at every render,
    each time with the [firstLoadTime] of the hook and a new [now]. *)
Definition expiryTimestamp (cfg : Config)
           (timestamp firstLoadTime now : Z) : Z :=
  if negb (endsAtMidnight cfg) && negb (midnightOver timestamp firstLoadTime)
  then fixedDelayExpiry cfg now
  else midnightExpiry timestamp.
End Zone.

(** The instant that the comment on line 257 and the text of the page
    (lines 391-397) name: 00:00:00 UTC of the day after the UTC day of
    [timestamp]. *)
Definition nextUtcMidnight (timestamp : Z) : Z :=
  (Day timestamp + 1) * msPerDay.


End Expiry.

(** ** Deposit records and their store *)

(** The record that [getFirstUnwithdrawn] returns, with the fields the
    component reads and the field that [updateWithdrawTxHash] sets. *)
Record DepositRecord := {
  privKey : Z;
  identityNullifier : Z;
  recipientAddress : string;
  timestamp : Z;
  withdrawTxHash : option string
}.

Definition option_string_eqb (a b : option string) : bool :=
  match a, b with
  | Some x, Some y => String.eqb x y
  | None, None => true
  | _, _ => false
  end.

Definition sameRecord (a b : DepositRecord) : bool :=
  (privKey a =? privKey b) && (identityNullifier a =? identityNullifier b)
  && String.eqb (recipientAddress a) (recipientAddress b)
  && (timestamp a =? timestamp b)
  && option_string_eqb (withdrawTxHash a) (withdrawTxHash b).

Definition withTxHash (r : DepositRecord) (h : string) : DepositRecord :=
  {| privKey := privKey r;
     identityNullifier := identityNullifier r;
     recipientAddress := recipientAddress r;
     timestamp := timestamp r;
     withdrawTxHash := Some h |}.

Definition Store : Type := list DepositRecord.

(** Modelled from the spec: [updateWithdrawTxHash] of [../storage], which
    is not part of this file.  Section 3 of the specification: the record
    is mutated to set its withdrawal transaction hash; nothing else in the
    store changes. *)
Definition updateWithdrawTxHash (r : DepositRecord) (h : string)
           (store : Store) : Store :=
  map (fun x => if sameRecord x r then withTxHash x h else x) store.

(** ** Errors *)

(** Modelled from the spec: the members of [ErrorCodes] (declared in
    [../errors], not part of this file) that the component names; section 7
    of the specification lists them as distinct kinds. *)
Inductive ErrorCodes :=
| INVALID_SIG
| WITNESS_GEN_ERROR
| INVALID_WITNESS
| INVALID_PROOF
| TX_FAILED
| PRE_BROADCAST_CHECK_FAILED.

Definition ErrorCodes_eqb (a b : ErrorCodes) : bool :=
  match a, b with
  | INVALID_SIG, INVALID_SIG
  | WITNESS_GEN_ERROR, WITNESS_GEN_ERROR
  | INVALID_WITNESS, INVALID_WITNESS
  | INVALID_PROOF, INVALID_PROOF
  | TX_FAILED, TX_FAILED
  | PRE_BROADCAST_CHECK_FAILED, PRE_BROADCAST_CHECK_FAILED => true
  | _, _ => false
  end.

(** The [code] property of a thrown value. *)
Inductive Code :=
| AppCode (c : ErrorCodes)      (* a member of ErrorCodes *)
| LibCode (s : string)          (* a code of a library, such as ethers.errors.* *)
| NoCode.                       (* the value has no code *)

Definition Code_eqb (a b : Code) : bool :=
  match a, b with
  | AppCode x, AppCode y => ErrorCodes_eqb x y
  | LibCode x, LibCode y => String.eqb x y
  | NoCode, NoCode => true
  | _, _ => false
  end.

(** A thrown value: an object, with the two properties that the [catch]
    block reads.  A rejection with [undefined] or [null], on which the
    read of [err.code] on line 231 would itself throw, is not a value of
    this type. *)
Record Exn := { code : Code; reason : option string }.

Definition appError (c : ErrorCodes) : Exn :=
  {| code := AppCode c; reason := None |}.

(** What a property access on [undefined] throws. *)
Definition TypeError : Exn := {| code := NoCode; reason := None |}.

(** [ethers.errors.UNSUPPORTED_OPERATION] *)
Definition UNSUPPORTED_OPERATION : Code := LibCode "UNSUPPORTED_OPERATION".

(** ** Effects and asynchronous computations *)

Declare Scope async_scope.
Delimit Scope async_scope with async.

Section Effects.

(** Values the component only passes on: keys, trees, proofs, provider
    and contract objects. *)
Context {V : Type}.

(** The object that [useWeb3Context] returns: its connector, if any, and
    the code of its error, if any. *)
Record Web3Context := {
  connector : option V;
  error : option string
}.

(** The JSON-RPC request of lines 190-195. *)
Record Request := {
  jsonrpc : string;
  reqId : Z;
  method : string;
  params : V
}.

(** The parsed body of the relayer's answer, in the shapes of lines
    212 and 222. *)
Inductive RelayerJson :=
| JResult (txHash : string)       (* { result: { txHash } } *)
| JError (name : string)          (* { error: { data: { name } } } *)
| JOther.                         (* neither [result] nor [error] *)

(** Requests that leave the page. *)
Inductive Net :=
| GetProvider (chain : Z)
| GetBalance (address : string)
| GetMixerContract
| GetLeaves
| FetchGet (url : string)
| PostApi (request : Request).

Inductive Logged :=
| LogBalance (balance : V)
| LogRequest (request : Request)
| LogTxHash (txHash : string)
| LogError (err : Exn).

(** What the routine does to the outside, in order. *)
Inductive Effect :=
| SetProofGenProgress (line : string)
| SetTxHash (txHash : string)
| SetErrorMsg (msg : string)
| StoreTxHash (identityStored : DepositRecord) (txHash : string)
| Network (n : Net)
| Sleep (ms : Z)
| Console (l : Logged).

(** A computation: the effects carried out, then a value or a thrown
    exception. *)
Definition M (A : Type) : Type := (list Effect * (Exn + A))%type.

Definition trace {A} (m : M A) : list Effect := fst m.
Definition outcome {A} (m : M A) : Exn + A := snd m.

Definition ret {A} (a : A) : M A := ([], inr a).

Definition throw {A} (e : Exn) : M A := ([], inl e).

(** Sequencing: a thrown exception skips the rest. *)
Definition bind {A B} (m : M A) (k : A -> M B) : M B :=
  match m with
  | (t, inl e) => (t, inl e)
  | (t, inr a) => let '(t', r) := k a in (t ++ t', r)
  end.

(** [try { m } catch (e) { handler e }] *)
Definition tryCatch {A} (m : M A) (handler : Exn -> M A) : M A :=
  match m with
  | (t, inl e) => let '(t', r) := handler e in (t ++ t', r)
  | (t, inr a) => (t, inr a)
  end.

Definition emit (e : Effect) : M unit := ([e], inr tt).

(** A call into a library: no effect of its own, returns or throws. *)
Definition call {A} (r : Exn + A) : M A := ([], r).

(** An awaited request: it is sent, then resolves or rejects. *)
Definition await {A} (n : Net) (r : Exn + A) : M A := ([Network n], r).

Definition progress (line : string) : M unit :=
  emit (SetProofGenProgress line).

End Effects.

Notation "x <- m ;; k" := (bind m (fun x => k))
  (at level 61, m at next level, right associativity) : async_scope.
Notation "' p <- m ;; k" := (bind m (fun x => match x with p => k end))
  (at level 61, p pattern, m at next level, right associativity) : async_scope.
Notation "m ;; k" := (bind m (fun _ => k))
  (at level 61, right associativity) : async_scope.

(** Classes of effects. *)
Definition isPostApi {V} (e : @Effect V) : bool :=
  match e with Network (PostApi _) => true | _ => false end.

Definition isNetwork {V} (e : @Effect V) : bool :=
  match e with Network _ => true | _ => false end.

Definition isStoreTxHash {V} (e : @Effect V) : bool :=
  match e with StoreTxHash _ _ => true | _ => false end.

Definition isSetTxHash {V} (e : @Effect V) : bool :=
  match e with SetTxHash _ => true | _ => false end.

Definition isSetErrorMsg {V} (e : @Effect V) : bool :=
  match e with SetErrorMsg _ => true | _ => false end.

(** An effect that neither posts to the relayer, nor writes the store,
    nor sets the transaction hash. *)
Definition calm {V} (e : @Effect V) : bool :=
  negb (isPostApi e || isStoreTxHash e || isSetTxHash e).

(** A calm effect that does not set the error message either. *)
Definition quiet {V} (e : @Effect V) : bool :=
  calm e && negb (isSetErrorMsg e).

(** Number of writes to the store in a trace. *)
Definition storeWrites {V} (t : list (@Effect V)) : nat :=
  List.length (filter isStoreTxHash t).

(** ** The collaborators of the component

    Everything [withdraw] calls and does not define: the chain context,
    [mixer-crypto], [mixer-utils], [fetch] and the clock.  Each call
    returns a value or throws; a call is a function of the arguments the
    component passes. *)
Record World {V : Type} := {
  (* chain context and contract *)
  getProvider : V -> Z -> Exn + V;
  getBalanceBefore : V -> string -> Exn + V;
  getBalanceAfter : V -> string -> Exn + V;
  getMixerContract : @Web3Context V -> Exn + V;
  address : V -> V;
  getLeaves : V -> Exn + V;
  (* mixer-crypto *)
  genTree : V -> Exn + V;
  genPubKey : Z -> Exn + V;
  genIdentityCommitment : Z -> V -> Exn + V;
  genPathElementsAndIndex : V -> V -> Exn + (V * V);
  element_index : V -> V -> Exn + V;
  path : V -> V -> Exn + (V * V);
  genSignalAndSignalHash : string -> string -> Z -> Exn + (V * V);
  genSignedMsg : Z -> V -> V -> Exn + (V * V);
  verifySignature : V -> V -> V -> Exn + bool;
  genCircuit : V -> Exn + V;
  genWitness : V -> V -> V -> V -> V -> Z -> V -> V -> Exn + V;
  checkWitness : V -> V -> Exn + bool;
  unstringifyBigInts : V -> Exn + V;
  genProof : V -> V -> Exn + V;
  genPublicSignals : V -> V -> Exn + V;
  verifyProof : V -> V -> V -> Exn + bool;
  (* mixer-utils *)
  genMixParams : V -> V -> string -> Z -> V -> Exn + V;
  (* fetch *)
  fetchJson : string -> Exn + V;
  fetchArrayBuffer : string -> Exn + V;
  postApi : @Request V -> Exn + RelayerJson;
  (* (new Date()).getTime() on line 192 *)
  requestTime : Z
}.
Arguments World V : clear implicits.

(** The world [w] with a tree object that answers [leafIndex] to
    [element_index] and [treePath] to [path]. *)
Definition withTreeLookup {V} (w : World V) (leafIndex : V)
           (treePath : V * V) : World V :=
  {| getProvider := getProvider w;
     getBalanceBefore := getBalanceBefore w;
     getBalanceAfter := getBalanceAfter w;
     getMixerContract := getMixerContract w;
     address := address w;
     getLeaves := getLeaves w;
     genTree := genTree w;
     genPubKey := genPubKey w;
     genIdentityCommitment := genIdentityCommitment w;
     genPathElementsAndIndex := genPathElementsAndIndex w;
     element_index := fun _ _ => inr leafIndex;
     path := fun _ _ => inr treePath;
     genSignalAndSignalHash := genSignalAndSignalHash w;
     genSignedMsg := genSignedMsg w;
     verifySignature := verifySignature w;
     genCircuit := genCircuit w;
     genWitness := genWitness w;
     checkWitness := checkWitness w;
     unstringifyBigInts := unstringifyBigInts w;
     genProof := genProof w;
     genPublicSignals := genPublicSignals w;
     verifyProof := verifyProof w;
     genMixParams := genMixParams w;
     fetchJson := fetchJson w;
     fetchArrayBuffer := fetchArrayBuffer w;
     postApi := postApi w;
     requestTime := requestTime w |}.

(** ** The [withdraw] routine (lines 76-250) *)

Section Withdraw.
Context {V : Type}.
Variable w : World V.
Variable config : Config.
(** [getFirstUnwithdrawn()] of line 71, as the closure holds it. *)
Variable identityStored : DepositRecord.

Local Open Scope async_scope.
Local Open Scope string_scope.

(** What the first part of the [try] block hands to the second. *)
Record Proved := {
  signal : V;
  proof : V;
  publicSignals : V;
  verifyingKey : V
}.

(** Lines 88-172: from the contract to the proof and its public
    signals. *)
Definition proofSteps (context : @Web3Context V) : M (V:=V) Proved :=
  mixerContract <- await GetMixerContract (getMixerContract w context) ;;
  let externalNullifier := address w mixerContract in
  progress "Downloading leaves..." ;;
  leaves <- await GetLeaves (getLeaves w mixerContract) ;;
  tree <- call (genTree w leaves) ;;
  pubKey <- call (genPubKey w (privKey identityStored)) ;;
  identityCommitment <-
    call (genIdentityCommitment w (identityNullifier identityStored) pubKey) ;;
  '(identityPathElements, identityPathIndex) <-
    call (genPathElementsAndIndex w tree identityCommitment) ;;
  leafIndex <- call (element_index w tree identityCommitment) ;;
  identityPath <- call (path w tree leafIndex) ;;
  '(signalHash, signal) <-
    call (genSignalAndSignalHash w (recipientAddress identityStored)
            (broadcasterAddress config) (feeAmtWei config)) ;;
  '(signature, msg) <-
    call (genSignedMsg w (privKey identityStored) externalNullifier
            signalHash) ;;
  validSig <- call (verifySignature w msg signature pubKey) ;;
  (if negb validSig then throw (appError INVALID_SIG) else ret tt) ;;
  progress "Downloading circuit..." ;;
  cirDef <- await (FetchGet (circuitPath config))
                  (fetchJson w (circuitPath config)) ;;
  circuit <- call (genCircuit w cirDef) ;;
  wit <- tryCatch
           (call (genWitness w circuit pubKey signature signalHash
                    externalNullifier (identityNullifier identityStored)
                    identityPathElements identityPathIndex))
           (fun err =>
              emit (Console (LogError err)) ;;
              throw (appError WITNESS_GEN_ERROR)) ;;
  witnessOk <- call (checkWitness w circuit wit) ;;
  (if negb witnessOk then throw (appError INVALID_WITNESS) else ret tt) ;;
  progress "Downloading proving key..." ;;
  provingKey <- await (FetchGet (provingKeyPath config))
                      (fetchArrayBuffer w (provingKeyPath config)) ;;
  progress "Downloading verification key..." ;;
  vkJson <- await (FetchGet (verificationKeyPath config))
                  (fetchJson w (verificationKeyPath config)) ;;
  verifyingKey <- call (unstringifyBigInts w vkJson) ;;
  progress "Generating proof..." ;;
  proof <- call (genProof w wit provingKey) ;;
  publicSignals <- call (genPublicSignals w wit circuit) ;;
  ret {| signal := signal; proof := proof;
         publicSignals := publicSignals; verifyingKey := verifyingKey |}.

(** Lines 211-226: what the routine does with the relayer's answer. *)
Definition handleResponse (provider : V) (responseJson : RelayerJson)
  : M (V:=V) unit :=
  match responseJson with
  | JResult txHash =>
      progress "" ;;
      emit (SetTxHash txHash) ;;
      emit (Console (LogTxHash txHash)) ;;
      emit (StoreTxHash identityStored txHash) ;;
      emit (Sleep 4000) ;;
      recipientBalanceAfter <-
        await (GetBalance (recipientAddress identityStored))
              (getBalanceAfter w provider (recipientAddress identityStored)) ;;
      emit (Console (LogBalance recipientBalanceAfter))
  | JError name =>
      if String.eqb name "BACKEND_MIX_PROOF_PRE_BROADCAST_INVALID"
      then throw (appError PRE_BROADCAST_CHECK_FAILED)
      else ret tt
  | JOther => throw TypeError
  end.

(** Lines 190-195: the request. *)
Definition mixRequest (params : V) : @Request V :=
  {| jsonrpc := "2.0";
     reqId := requestTime w;
     method := "mixer_mix";
     params := params |}.

(** Lines 174-226: the local check of the proof, the request and the
    relayer's answer. *)
Definition verifyAndSubmit (provider : V) (p : Proved) : M (V:=V) unit :=
  isVerified <-
    call (verifyProof w (verifyingKey p) (proof p) (publicSignals p)) ;;
  (if negb isVerified then throw (appError INVALID_PROOF) else ret tt) ;;
  params <- call (genMixParams w (signal p) (proof p)
                    (recipientAddress identityStored) (feeAmtWei config)
                    (publicSignals p)) ;;
  let request := mixRequest params in
  progress "Sending JSON-RPC call to the relayer..." ;;
  emit (Console (LogRequest request)) ;;
  responseJson <- await (PostApi request) (postApi w request) ;;
  handleResponse provider responseJson.

(** Lines 230-247: the message chosen for a caught exception, if any. *)
Definition errorMessage (err : Exn) : option string :=
  if Code_eqb (code err) UNSUPPORTED_OPERATION
     && option_string_eqb (reason err) (Some "contract not deployed")
  then Some ("The mixer contract was not deployed to the expected address "
             ++ deployedMixer config)
  else if Code_eqb (code err) (AppCode WITNESS_GEN_ERROR)
  then Some "Could not generate witness."
  else if Code_eqb (code err) (AppCode INVALID_WITNESS)
  then Some "Invalid witness."
  else if Code_eqb (code err) (AppCode INVALID_PROOF)
  then Some "Invalid proof."
  else if Code_eqb (code err) (AppCode INVALID_SIG)
  then Some "Invalid signature."
  else if Code_eqb (code err) (AppCode TX_FAILED)
  then Some "The transaction failed."
  else if Code_eqb (code err) (AppCode PRE_BROADCAST_CHECK_FAILED)
  then Some "The pre-broadcast check failed"
  else None.

(** Lines 227-249: the [catch] block. *)
Definition catchBlock (err : Exn) : M (V:=V) unit :=
  emit (Console (LogError err)) ;;
  match errorMessage err with
  | Some msg => emit (SetErrorMsg msg)
  | None => ret tt
  end.

(** Lines 87-249: the [try] statement. *)
Definition tryBlock (context : @Web3Context V) (provider : V)
  : M (V:=V) unit :=
  tryCatch (p <- proofSteps context ;; verifyAndSubmit provider p)
           catchBlock.

(** What the [try] block does after the proof steps, and what the
    [catch] block does. *)
Definition submitted (context : @Web3Context V) (provider : V)
  : list (@Effect V) :=
  match outcome (proofSteps context) with
  | inr p => trace (verifyAndSubmit provider p)
  | inl _ => []
  end.

Definition caught (context : @Web3Context V) (provider : V)
  : list (@Effect V) :=
  match outcome (p <- proofSteps context ;; verifyAndSubmit provider p) with
  | inl e => trace (catchBlock e)
  | inr _ => []
  end.

(** Lines 76-250. *)
Definition withdraw (context : @Web3Context V) : M (V:=V) unit :=
  match connector context with
  | None => ret tt
  | Some conn =>
      provider <- await (GetProvider (chainId config))
                        (getProvider w conn (chainId config)) ;;
      recipientBalanceBefore <-
        await (GetBalance (recipientAddress identityStored))
              (getBalanceBefore w provider (recipientAddress identityStored)) ;;
      emit (Console (LogBalance recipientBalanceBefore)) ;;
      tryBlock context provider
  end.

End Withdraw.

(** ** The component: hook state, triggers and runs in flight

    React commits every state update before the next event is handled, so
    a handler and the body of the component read the state left by the
    events before them.  A call of [withdraw] reads no hook state: its
    effects are fixed when it is called and carried out one by one later,
    between other events. *)

(** Lines 58-65: the state hooks. *)
Record State := {
  txHash : string;
  firstLoadTime : Z;
  withdrawStarted : bool;
  countdownDone : bool;
  proofGenProgress : string;
  showAdvanced : bool;
  withdrawBtnClicked : bool;
  errorMsg : string
}.

(** The initial values of the hooks; [now] is [new Date()] of line 59. *)
Definition initialState (now : Z) : State :=
  {| txHash := ""; firstLoadTime := now; withdrawStarted := false;
     countdownDone := false; proofGenProgress := ""; showAdvanced := false;
     withdrawBtnClicked := false; errorMsg := "" |}.

Definition setTxHash (v : string) (s : State) : State :=
  {| txHash := v; firstLoadTime := firstLoadTime s;
     withdrawStarted := withdrawStarted s; countdownDone := countdownDone s;
     proofGenProgress := proofGenProgress s; showAdvanced := showAdvanced s;
     withdrawBtnClicked := withdrawBtnClicked s; errorMsg := errorMsg s |}.

Definition setWithdrawStarted (v : bool) (s : State) : State :=
  {| txHash := txHash s; firstLoadTime := firstLoadTime s;
     withdrawStarted := v; countdownDone := countdownDone s;
     proofGenProgress := proofGenProgress s; showAdvanced := showAdvanced s;
     withdrawBtnClicked := withdrawBtnClicked s; errorMsg := errorMsg s |}.

Definition setCountdownDone (v : bool) (s : State) : State :=
  {| txHash := txHash s; firstLoadTime := firstLoadTime s;
     withdrawStarted := withdrawStarted s; countdownDone := v;
     proofGenProgress := proofGenProgress s; showAdvanced := showAdvanced s;
     withdrawBtnClicked := withdrawBtnClicked s; errorMsg := errorMsg s |}.

Definition setProofGenProgress (v : string) (s : State) : State :=
  {| txHash := txHash s; firstLoadTime := firstLoadTime s;
     withdrawStarted := withdrawStarted s; countdownDone := countdownDone s;
     proofGenProgress := v; showAdvanced := showAdvanced s;
     withdrawBtnClicked := withdrawBtnClicked s; errorMsg := errorMsg s |}.

Definition setShowAdvanced (v : bool) (s : State) : State :=
  {| txHash := txHash s; firstLoadTime := firstLoadTime s;
     withdrawStarted := withdrawStarted s; countdownDone := countdownDone s;
     proofGenProgress := proofGenProgress s; showAdvanced := v;
     withdrawBtnClicked := withdrawBtnClicked s; errorMsg := errorMsg s |}.

Definition setWithdrawBtnClicked (v : bool) (s : State) : State :=
  {| txHash := txHash s; firstLoadTime := firstLoadTime s;
     withdrawStarted := withdrawStarted s; countdownDone := countdownDone s;
     proofGenProgress := proofGenProgress s; showAdvanced := showAdvanced s;
     withdrawBtnClicked := v; errorMsg := errorMsg s |}.

Definition setErrorMsg (v : string) (s : State) : State :=
  {| txHash := txHash s; firstLoadTime := firstLoadTime s;
     withdrawStarted := withdrawStarted s; countdownDone := countdownDone s;
     proofGenProgress := proofGenProgress s; showAdvanced := showAdvanced s;
     withdrawBtnClicked := withdrawBtnClicked s; errorMsg := v |}.

(** The values [useTimer] returns that the component reads. *)
Record Timer := { days : Z; hours : Z; minutes : Z; seconds : Z }.

Section Component.
Context {V : Type}.
Variable tz : JsDate.TimeZone.
Variable config : Config.
Variable w : World V.

(** The context is an object, and an object is truthy. *)
Definition truthy (context : @Web3Context V) : bool := true.

(** Lines 281-286: the condition of the automatic trigger. *)
Definition autoTrigger (s : State) (context : @Web3Context V)
           (midnightOver : bool) (timer : Timer) : bool :=
  negb (withdrawStarted s)
  && countdownDone s
  && truthy context
  && negb midnightOver
  && (days timer + hours timer + minutes timer + seconds timer =? 0).

(** Line 347: the button below the headline is rendered. *)
Definition buttonShown (s : State) (context : @Web3Context V)
           (midnightOver : bool) : bool :=
  match error context with None => true | Some _ => false end
  && (String.length (txHash s) =? 0)%nat
  && midnightOver
  && negb (withdrawStarted s).

(** Lines 406-408, 436 and 448: the button among the advanced options
    is rendered. *)
Definition advancedButtonShown (s : State) (context : @Web3Context V)
           (midnightOver : bool) : bool :=
  negb ((String.length (txHash s) =? 0)%nat && midnightOver
        && negb (withdrawStarted s))
  && negb (withdrawBtnClicked s)
  && negb (withdrawStarted s)
  && showAdvanced s
  && match error context with None => true | Some _ => false end.

(** A session of the page: the hook state, the store, the effects each
    call of [withdraw] has still to carry out, the number of calls of
    [withdraw] so far and the effects carried out so far. *)
Record Session := {
  ui : State;
  store : Store;
  inFlight : list (list (@Effect V));
  withdrawCalls : nat;
  performed : list (@Effect V)
}.

Definition initialSession (now : Z) (store0 : Store) : Session :=
  {| ui := initialState now; store := store0; inFlight := [];
     withdrawCalls := 0%nat; performed := [] |}.

Definition withUi (f : State -> State) (ses : Session) : Session :=
  {| ui := f (ui ses); store := store ses; inFlight := inFlight ses;
     withdrawCalls := withdrawCalls ses; performed := performed ses |}.

(** The call [withdraw(context)]: one more run in flight. *)
Definition callWithdraw (identityStored : DepositRecord)
           (context : @Web3Context V) (ses : Session) : Session :=
  {| ui := ui ses; store := store ses;
     inFlight := inFlight ses ++ [trace (withdraw w config identityStored context)];
     withdrawCalls := S (withdrawCalls ses);
     performed := performed ses |}.

(** One effect of a run reaches the hooks or the store. *)
Definition perform (e : @Effect V) (ses : Session) : Session :=
  {| ui := match e with
           | SetProofGenProgress line => setProofGenProgress line (ui ses)
           | SetTxHash h => setTxHash h (ui ses)
           | SetErrorMsg msg => setErrorMsg msg (ui ses)
           | _ => ui ses
           end;
     store := match e with
              | StoreTxHash r h => updateWithdrawTxHash r h (store ses)
              | _ => store ses
              end;
     inFlight := inFlight ses;
     withdrawCalls := withdrawCalls ses;
     performed := performed ses ++ [e] |}.

(** A run carried out to its end with nothing in between. *)
Definition performAll (t : list (@Effect V)) (ses : Session) : Session :=
  fold_left (fun s e => perform e s) t ses.

(** What can happen to the page. *)
Inductive Event :=
| Expire                              (* the timer calls [onExpire] *)
| Render (identityStored : DepositRecord) (context : @Web3Context V)
         (timer : Timer)              (* the body of the component runs
                                         past the redirect of line 54 *)
| ClickWithdraw (identityStored : DepositRecord)
                (context : @Web3Context V)   (* [onClick] of the button *)
| ClickAdvanced                       (* [onClick] of lines 423-427 *)
| Resume (k : nat).                   (* run [k] carries out its next effect *)

(** Lines 274-278. *)
Definition onExpire (ses : Session) : Session :=
  if negb (countdownDone (ui ses))
  then withUi (setCountdownDone true) ses
  else ses.

(** Lines 252-259 and 281-289: the body of the component, as far as it
    acts. *)
Definition render (identityStored : DepositRecord)
           (context : @Web3Context V) (timer : Timer) (ses : Session)
  : Session :=
  let midnightOver :=
    Expiry.midnightOver tz (timestamp identityStored)
                        (firstLoadTime (ui ses)) in
  if autoTrigger (ui ses) context midnightOver timer
  then callWithdraw identityStored context
         (withUi (setWithdrawStarted true) ses)
  else ses.

(** Lines 293-302. *)
Definition onClick (identityStored : DepositRecord)
           (context : @Web3Context V) (ses : Session) : Session :=
  let ses1 := withUi (setWithdrawBtnClicked true) ses in
  let ses2 := if showAdvanced (ui ses)
              then withUi (setShowAdvanced false) ses1
              else ses1 in
  if negb (withdrawStarted (ui ses))
  then callWithdraw identityStored context
         (withUi (setWithdrawStarted true) ses2)
  else ses2.

(** Take the next effect of run [k], if there is one. *)
Fixpoint nextEffect (k : nat) (runs : list (list (@Effect V)))
  : option (@Effect V * list (list (@Effect V))) :=
  match runs, k with
  | [], _ => None
  | [] :: _, O => None
  | (e :: rest) :: others, O => Some (e, rest :: others)
  | r :: others, S k' =>
      match nextEffect k' others with
      | Some (e, others') => Some (e, r :: others')
      | None => None
      end
  end.

Definition resume (k : nat) (ses : Session) : Session :=
  match nextEffect k (inFlight ses) with
  | Some (e, runs) =>
      perform e {| ui := ui ses; store := store ses; inFlight := runs;
                   withdrawCalls := withdrawCalls ses;
                   performed := performed ses |}
  | None => ses
  end.

Definition step (ses : Session) (ev : Event) : Session :=
  match ev with
  | Expire => onExpire ses
  | Render identityStored context timer =>
      render identityStored context timer ses
  | ClickWithdraw identityStored context =>
      onClick identityStored context ses
  | ClickAdvanced =>
      withUi (fun s => setShowAdvanced (negb (showAdvanced s)) s) ses
  | Resume k => resume k ses
  end.

Definition run (ses : Session) (evs : list Event) : Session :=
  fold_left step evs ses.

(** The latch and the runs agree: either nothing has started, or
    [withdrawStarted] is set and [withdraw] was called exactly once. *)
Definition latched (ses : Session) : Prop :=
  (withdrawStarted (ui ses) = false
   /\ withdrawCalls ses = 0%nat /\ inFlight ses = [])
  \/ (withdrawStarted (ui ses) = true
      /\ withdrawCalls ses = 1%nat /\ List.length (inFlight ses) = 1%nat).

(** The effects carried out so far are the beginning of the one run
    that was started, if any, and the store is the initial store under
    these effects. *)
Definition tracked (now : Z) (store0 : Store) (ses : Session) : Prop :=
  store ses = store (performAll (performed ses) (initialSession now store0))
  /\ ((withdrawStarted (ui ses) = false
       /\ inFlight ses = [] /\ performed ses = [])
      \/ (withdrawStarted (ui ses) = true
          /\ exists r c rest,
              inFlight ses = [rest]
              /\ performed ses ++ rest = trace (withdraw w config r c))).

(** The latch is set, the one run in flight has nothing left to do, and
    what the user can see is what it was in [ses0]. *)
Definition stuck (calls : nat) (ses0 ses : Session) : Prop :=
  withdrawStarted (ui ses) = true
  /\ inFlight ses = [[]]
  /\ withdrawCalls ses = calls
  /\ performed ses = performed ses0
  /\ store ses = store ses0
  /\ txHash (ui ses) = txHash (ui ses0)
  /\ errorMsg (ui ses) = errorMsg (ui ses0)
  /\ proofGenProgress (ui ses) = proofGenProgress (ui ses0).

End Component.

(** ** The steps up to the proof, stage by stage *)

Section Stages.
Context {V : Type}.
Variable w : World V.
Variable config : Config.
Variable identityStored : DepositRecord.

Local Open Scope async_scope.
Local Open Scope string_scope.

(** What lines 88-121 leave for the lines after them. *)
Record Signed := {
  s_externalNullifier : V;
  s_pubKey : V;
  s_pathElements : V;
  s_pathIndex : V;
  s_signalHash : V;
  s_signal : V;
  s_signature : V;
  s_msg : V
}.

(** Lines 88-121: contract, leaves, tree, keys, Merkle path, signal and
    signed message. *)
Definition signingSteps (context : @Web3Context V) : M (V:=V) Signed :=
  mixerContract <- await GetMixerContract (getMixerContract w context) ;;
  let externalNullifier := address w mixerContract in
  progress "Downloading leaves..." ;;
  leaves <- await GetLeaves (getLeaves w mixerContract) ;;
  tree <- call (genTree w leaves) ;;
  pubKey <- call (genPubKey w (privKey identityStored)) ;;
  identityCommitment <-
    call (genIdentityCommitment w (identityNullifier identityStored) pubKey) ;;
  '(identityPathElements, identityPathIndex) <-
    call (genPathElementsAndIndex w tree identityCommitment) ;;
  leafIndex <- call (element_index w tree identityCommitment) ;;
  identityPath <- call (path w tree leafIndex) ;;
  '(signalHash, signal) <-
    call (genSignalAndSignalHash w (recipientAddress identityStored)
            (broadcasterAddress config) (feeAmtWei config)) ;;
  '(signature, msg) <-
    call (genSignedMsg w (privKey identityStored) externalNullifier
            signalHash) ;;
  ret {| s_externalNullifier := externalNullifier;
         s_pubKey := pubKey;
         s_pathElements := identityPathElements;
         s_pathIndex := identityPathIndex;
         s_signalHash := signalHash;
         s_signal := signal;
         s_signature := signature;
         s_msg := msg |}.

(** Lines 123-128: the check of the signature. *)
Definition checkSignature (s : Signed) : M (V:=V) unit :=
  validSig <- call (verifySignature w (s_msg s) (s_signature s) (s_pubKey s)) ;;
  if negb validSig then throw (appError INVALID_SIG) else ret tt.

(** Lines 130-132: the circuit. *)
Definition downloadCircuit : M (V:=V) V :=
  progress "Downloading circuit..." ;;
  cirDef <- await (FetchGet (circuitPath config))
                  (fetchJson w (circuitPath config)) ;;
  call (genCircuit w cirDef).

(** Lines 134-157: the witness and its check. *)
Definition makeWitness (s : Signed) (circuit : V) : M (V:=V) V :=
  wit <- tryCatch
           (call (genWitness w circuit (s_pubKey s) (s_signature s)
                    (s_signalHash s) (s_externalNullifier s)
                    (identityNullifier identityStored)
                    (s_pathElements s) (s_pathIndex s)))
           (fun err =>
              emit (Console (LogError err)) ;;
              throw (appError WITNESS_GEN_ERROR)) ;;
  witnessOk <- call (checkWitness w circuit wit) ;;
  (if negb witnessOk then throw (appError INVALID_WITNESS) else ret tt) ;;
  ret wit.

(** Lines 159-172: the keys, the proof and the public signals. *)
Definition proveWitness (s : Signed) (circuit wit : V) : M (V:=V) Proved :=
  progress "Downloading proving key..." ;;
  provingKey <- await (FetchGet (provingKeyPath config))
                      (fetchArrayBuffer w (provingKeyPath config)) ;;
  progress "Downloading verification key..." ;;
  vkJson <- await (FetchGet (verificationKeyPath config))
                  (fetchJson w (verificationKeyPath config)) ;;
  verifyingKey <- call (unstringifyBigInts w vkJson) ;;
  progress "Generating proof..." ;;
  proof <- call (genProof w wit provingKey) ;;
  publicSignals <- call (genPublicSignals w wit circuit) ;;
  ret {| signal := s_signal s; proof := proof;
         publicSignals := publicSignals; verifyingKey := verifyingKey |}.

(** Lines 88-172 as the sequence of these stages. *)
Definition stagedProofSteps (context : @Web3Context V) : M (V:=V) Proved :=
  s <- signingSteps context ;;
  checkSignature s ;;
  circuit <- downloadCircuit ;;
  wit <- makeWitness s circuit ;;
  proveWitness s circuit wit.

End Stages.

(** ** Counting and listing effects *)

Definition isFetchGet {V} (e : @Effect V) : bool :=
  match e with Network (FetchGet _) => true | _ => false end.

Definition isHookSetter {V} (e : @Effect V) : bool :=
  match e with
  | SetProofGenProgress _ | SetTxHash _ | SetErrorMsg _ => true
  | _ => false
  end.

(** Number of requests to the relayer in a trace. *)
Definition postCount {V} (t : list (@Effect V)) : nat :=
  List.length (filter isPostApi t).

(** Number of error messages set in a trace. *)
Definition errorMsgCount {V} (t : list (@Effect V)) : nat :=
  List.length (filter isSetErrorMsg t).



(** ** What the component renders (lines 308-465) *)

(** Lines 357-366: the success message. *)
Definition successShown (s : State) : bool :=
  (0 <? String.length (txHash s))%nat.

(** Lines 373-379: the error message. *)
Definition errorShown (s : State) : bool :=
  (0 <? String.length (errorMsg s))%nat.

(** Lines 406-408: the block with the time left and the advanced
    options. *)
Definition countdownShown (s : State) (midnightOver : bool) : bool :=
  negb ((String.length (txHash s) =? 0)%nat && midnightOver
        && negb (withdrawStarted s))
  && negb (withdrawBtnClicked s)
  && negb (withdrawStarted s).

(** Lines 322-344: the headline ends with the expiry time, not with
    "soon" or a full stop. *)
Definition expiryTimeShown (s : State) (midnightOver : bool) : bool :=
  negb (countdownDone s || midnightOver || withdrawBtnClicked s).

(** Lines 331-338: the progress line. *)
Definition progressShown (s : State) (midnightOver : bool) : bool :=
  (countdownDone s || midnightOver || withdrawBtnClicked s)
  && (0 <? String.length (proofGenProgress s))%nat.

(** ** Sessions without a trigger *)

Section Idle.
Context {V : Type}.

(** Nothing has been started and nothing has been carried out. *)
Definition idle (now : Z) (ses : @Session V) : Prop :=
  firstLoadTime (ui ses) = now
  /\ withdrawStarted (ui ses) = false
  /\ withdrawCalls ses = 0%nat
  /\ inFlight ses = []
  /\ txHash (ui ses) = ""%string
  /\ withdrawBtnClicked (ui ses) = false.

(** The hash and the message on the page were set by effects carried out
    in the session. *)
Definition reported (ses : @Session V) : Prop :=
  (txHash (ui ses) = ""%string
   \/ In (SetTxHash (txHash (ui ses))) (performed ses))
  /\ (errorMsg (ui ses) = ""%string
      \/ In (SetErrorMsg (errorMsg (ui ses))) (performed ses)).

(** A run that has been started was started by the expired countdown or
    by a click. *)
Definition announced (ses : @Session V) : Prop :=
  withdrawStarted (ui ses) = true ->
  countdownDone (ui ses) = true \/ withdrawBtnClicked (ui ses) = true.

Definition isClick (ev : @Event V) : bool :=
  match ev with ClickWithdraw _ _ => true | _ => false end.

Definition isExpire (ev : @Event V) : bool :=
  match ev with Expire => true | _ => false end.

End Idle.

(** ** Sample inputs *)
Module Sample.
Local Open Scope string_scope.

Definition config : Config :=
  {| chainId := 42;
     deployedMixer := "0xmixer";
     broadcasterAddress := "0xbroadcaster";
     endsAtMidnight := true;
     endsAfterSecs := 10;
     circuitPath := "/build/circuit.json";
     provingKeyPath := "/build/proving_key.bin";
     verificationKeyPath := "/build/verification_key.json";
     feeAmtWei := 1000000000000000 |}.


(** A deposit made at 15:00 UTC on 1 January 2021. *)
Definition deposit : DepositRecord :=
  {| privKey := 11; identityNullifier := 22;
     recipientAddress := "0xrecipient";
     timestamp := 1609513200000;
     withdrawTxHash := None |}.

Definition connected : @Web3Context nat :=
  {| connector := Some 1%nat; error := None |}.

Definition noConnector : @Web3Context nat :=
  {| connector := None; error := None |}.

(** A wallet on the wrong network: the connector is there, and so is
    the error. *)
Definition wrongNetwork : @Web3Context nat :=
  {| connector := Some 1%nat; error := Some "UNSUPPORTED_NETWORK" |}.

(** A world in which every call returns; the path finder answers
    [found], the tree answers leaf index [leafIndex] and path
    [treePath], the local check of the proof answers [proofOk] and the
    relayer answers [response]. *)
Definition world (found : nat * nat) (leafIndex : nat)
           (treePath : nat * nat) (proofOk : bool)
           (response : RelayerJson) : World nat :=
  {| getProvider := fun _ _ => inr 100%nat;
     getBalanceBefore := fun _ _ => inr 0%nat;
     getBalanceAfter := fun _ _ => inr 1%nat;
     getMixerContract := fun _ => inr 101%nat;
     address := fun _ => 102%nat;
     getLeaves := fun _ => inr 103%nat;
     genTree := fun _ => inr 104%nat;
     genPubKey := fun _ => inr 105%nat;
     genIdentityCommitment := fun _ _ => inr 106%nat;
     genPathElementsAndIndex := fun _ _ => inr found;
     element_index := fun _ _ => inr leafIndex;
     path := fun _ _ => inr treePath;
     genSignalAndSignalHash := fun _ _ _ => inr (107%nat, 108%nat);
     genSignedMsg := fun _ _ _ => inr (109%nat, 110%nat);
     verifySignature := fun _ _ _ => inr true;
     genCircuit := fun _ => inr 111%nat;
     genWitness := fun _ _ _ _ _ _ elements index =>
                     inr (112 + elements + index)%nat;
     checkWitness := fun _ _ => inr true;
     unstringifyBigInts := fun _ => inr 113%nat;
     genProof := fun wit _ => inr wit;
     genPublicSignals := fun _ _ => inr 114%nat;
     verifyProof := fun _ _ _ => inr proofOk;
     genMixParams := fun _ prf _ _ _ => inr prf;
     fetchJson := fun _ => inr 115%nat;
     fetchArrayBuffer := fun _ => inr 116%nat;
     postApi := fun _ => inr response;
     requestTime := 1609545600123 |}.

Definition zeroTimer : Timer :=
  {| days := 0; hours := 0; minutes := 0; seconds := 0 |}.

End Sample.

(** A second sample world, in which single steps can be made to fail. *)
Module FailingSample.
Local Open Scope string_scope.

(** Every call returns, except that the connector answers [provider],
    the contract accessor answers [contract], the check of the signature
    answers [sigOk], the witness generator answers [witness] and the check
    of the witness answers [witnessOk]; the relayer returns the hash
    "0xabc". *)
Definition world (provider contract : Exn + nat) (sigOk : bool)
           (witness : Exn + nat) (witnessOk : bool) : World nat :=
  {| getProvider := fun _ _ => provider;
     getBalanceBefore := fun _ _ => inr 0%nat;
     getBalanceAfter := fun _ _ => inr 1%nat;
     getMixerContract := fun _ => contract;
     address := fun _ => 102%nat;
     getLeaves := fun _ => inr 103%nat;
     genTree := fun _ => inr 104%nat;
     genPubKey := fun _ => inr 105%nat;
     genIdentityCommitment := fun _ _ => inr 106%nat;
     genPathElementsAndIndex := fun _ _ => inr (1%nat, 2%nat);
     element_index := fun _ _ => inr 7%nat;
     path := fun _ _ => inr (1%nat, 2%nat);
     genSignalAndSignalHash := fun _ _ _ => inr (107%nat, 108%nat);
     genSignedMsg := fun _ _ _ => inr (109%nat, 110%nat);
     verifySignature := fun _ _ _ => inr sigOk;
     genCircuit := fun _ => inr 111%nat;
     genWitness := fun _ _ _ _ _ _ _ _ => witness;
     checkWitness := fun _ _ => inr witnessOk;
     unstringifyBigInts := fun _ => inr 113%nat;
     genProof := fun wit _ => inr wit;
     genPublicSignals := fun _ _ => inr 114%nat;
     verifyProof := fun _ _ _ => inr true;
     genMixParams := fun _ prf _ _ _ => inr prf;
     fetchJson := fun _ => inr 115%nat;
     fetchArrayBuffer := fun _ => inr 116%nat;
     postApi := fun _ => inr (JResult "0xabc");
     requestTime := 1609545600123 |}.

(** What the signing steps leave in this world. *)
Definition signed : @Signed nat :=
  {| s_externalNullifier := 102%nat; s_pubKey := 105%nat;
     s_pathElements := 1%nat; s_pathIndex := 2%nat;
     s_signalHash := 107%nat; s_signal := 108%nat;
     s_signature := 109%nat; s_msg := 110%nat |}.

(** What a provider throws when no contract is at the address. *)
Definition notDeployed : Exn :=
  {| code := UNSUPPORTED_OPERATION; reason := Some "contract not deployed" |}.

(** A failure of the transport, with a code of its own. *)
Definition networkError : Exn :=
  {| code := LibCode "NETWORK_ERROR"; reason := None |}.

End FailingSample.

(* ------------------------------------------------------------------ *)

Module JsDateFacts.
Import JsDate.

(** The day number of a year start stays within two days of the mean
    year length times the number of years. *)
Lemma DayFromYear_mean (y : Z) :
  146097 * (y - 1970) - 800 <= 400 * DayFromYear y
                            <= 146097 * (y - 1970) + 800.
Proof. unfold DayFromYear. Z.div_mod_to_equations. lia. Qed.

Lemma YearFromDay_spec (d : Z) :
  DayFromYear (YearFromDay d) <= d < DayFromYear (YearFromDay d + 1).
Proof.
  unfold YearFromDay.
  set (y0 := 1970 + d * 400 / 146097).
  assert (Hq : 146097 * (y0 - 1970) <= d * 400 < 146097 * (y0 - 1970) + 146097)
    by (unfold y0; Z.div_mod_to_equations; lia).
  pose proof (DayFromYear_mean (y0 - 1)) as Hlo.
  pose proof (DayFromYear_mean (y0 + 1 + 1)) as Hhi.
  destruct (Z.leb_spec (DayFromYear (y0 + 1)) d).
  - lia.
  - destruct (Z.leb_spec (DayFromYear y0) d).
    + lia.
    + replace (y0 - 1 + 1) with y0 by lia. lia.
Qed.

Lemma MonthFromTime_range (t : Z) : 0 <= MonthFromTime t <= 11.
Proof.
  unfold MonthFromTime.
  repeat match goal with
         | |- context [Z.ltb ?a ?b] => destruct (Z.ltb a b)
         end; lia.
Qed.

(** Asking for the [date]-th day of the month that holds [t] gives the
    day number of [t] moved by the difference of the dates. *)
Lemma MakeDay_same_month (t date : Z) :
  MakeDay (YearFromTime t) (MonthFromTime t) date
  = Day t + (date - DateFromTime t).
Proof.
  pose proof (MonthFromTime_range t) as Hm.
  unfold MakeDay, DateFromTime, DayWithinYear, InLeapYear.
  rewrite Z.div_small, Z.mod_small by lia.
  rewrite Z.add_0_r. lia.
Qed.

Lemma Day_TimeWithinDay (t : Z) :
  MakeDate (Day t) (TimeWithinDay t) = t.
Proof.
  unfold MakeDate, Day, TimeWithinDay, msPerDay.
  Z.div_mod_to_equations. lia.
Qed.

Lemma MakeTime_parts (t : Z) :
  MakeTime (HourFromTime t) (MinFromTime t) (SecFromTime t) (msFromTime t)
  = TimeWithinDay t.
Proof.
  unfold MakeTime, HourFromTime, MinFromTime, SecFromTime, msFromTime,
    TimeWithinDay, msPerHour, msPerMinute, msPerSecond, msPerDay.
  Z.div_mod_to_equations. lia.
Qed.

(** In local terms [setDate] moves the date and keeps the time of day. *)
Lemma setDate_local (tz : TimeZone) (t date : Z) :
  setDate tz t date
  = UTC tz (LocalTime tz t + (date - getDate tz t) * msPerDay).
Proof.
  unfold setDate, getDate. cbv zeta.
  rewrite MakeDay_same_month. f_equal.
  rewrite <- (Day_TimeWithinDay (LocalTime tz t)) at 4.
  unfold MakeDate. lia.
Qed.

(** In local terms [setSeconds] moves the seconds and keeps the rest. *)
Lemma setSeconds_local (tz : TimeZone) (t sec : Z) :
  setSeconds tz t sec
  = UTC tz (LocalTime tz t + (sec - getSeconds tz t) * msPerSecond).
Proof.
  unfold setSeconds, getSeconds. cbv zeta. f_equal.
  rewrite <- (Day_TimeWithinDay (LocalTime tz t)) at 5.
  rewrite <- (MakeTime_parts (LocalTime tz t)).
  unfold MakeDate, MakeTime. lia.
Qed.

Lemma setDate_fixedZone (c t date : Z) :
  setDate (fixedZone c) t date
  = t + (date - getDate (fixedZone c) t) * msPerDay.
Proof. rewrite setDate_local. unfold UTC, LocalTime, fixedZone. lia. Qed.

Lemma setSeconds_fixedZone (c t sec : Z) :
  setSeconds (fixedZone c) t sec
  = t + (sec - getSeconds (fixedZone c) t) * msPerSecond.
Proof. rewrite setSeconds_local. unfold UTC, LocalTime, fixedZone. lia. Qed.

End JsDateFacts.

Module ExpiryFacts.
Import JsDate Expiry JsDateFacts.

(** The expiry in any zone: the UTC midnight of the day of the deposit,
    read on the local clock, moved one day on the local calendar and read
    back. *)
Lemma midnightExpiry_local (tz : TimeZone) (timestamp : Z) :
  midnightExpiry tz timestamp
  = UTC tz (LocalTime tz (Day timestamp * msPerDay) + msPerDay).
Proof.
  unfold midnightExpiry. cbv zeta. rewrite setDate_local.
  unfold setUTCHours, MakeDate, MakeTime. f_equal.
  replace (Day timestamp * msPerDay
           + (0 * msPerHour + 0 * msPerMinute + 0 * msPerSecond + 0))
    with (Day timestamp * msPerDay) by lia.
  lia.
Qed.


(** On a machine whose zone has one offset all year the expiry is the
    next UTC midnight. *)
Lemma midnightExpiry_fixedZone (c timestamp : Z) :
  midnightExpiry (fixedZone c) timestamp = nextUtcMidnight timestamp.
Proof.
  unfold midnightExpiry, nextUtcMidnight. cbv zeta.
  rewrite setDate_fixedZone.
  unfold setUTCHours, MakeDate, MakeTime. lia.
Qed.

Lemma fixedDelayExpiry_fixedZone (c : Z) (cfg : Config) (now : Z) :
  fixedDelayExpiry (fixedZone c) cfg now
  = now + endsAfterSecs cfg * msPerSecond.
Proof. unfold fixedDelayExpiry. rewrite setSeconds_fixedZone. lia. Qed.


(** The guard of line 262, on the expiry that lines 252-254 compute. *)
Lemma expiryTimestamp_guard
      (tz : TimeZone) (cfg : Config) (timestamp firstLoadTime now : Z) :
  (midnightOver tz timestamp firstLoadTime = true ->
   expiryTimestamp tz cfg timestamp firstLoadTime now
   = midnightExpiry tz timestamp)
  /\ (endsAtMidnight cfg = false ->
      midnightOver tz timestamp firstLoadTime = false ->
      expiryTimestamp tz cfg timestamp firstLoadTime now
      = fixedDelayExpiry tz cfg now)
  /\ (expiryTimestamp tz cfg timestamp firstLoadTime now
      <> midnightExpiry tz timestamp ->
      endsAtMidnight cfg = false
      /\ midnightOver tz timestamp firstLoadTime = false).
Proof.
  unfold expiryTimestamp. split; [ | split].
  - intros ->. now rewrite andb_false_r.
  - now intros -> ->.
  - destruct (endsAtMidnight cfg), (midnightOver tz timestamp firstLoadTime);
      cbn [negb andb]; intros H; try (now destruct H). now split.
Qed.

(** A deposit at 15:00 UTC on 1 January 2021 expires at 00:00 UTC on
    2 January, on a UTC machine and on a US Eastern one; a page loaded at
    16:00 UTC is before the expiry, one loaded at 01:00 UTC the next day
    is after it. *)
Example midnightExpiry_1_Jan_2021 :
  midnightExpiry (fixedZone 0) 1609513200000 = 1609545600000
  /\ midnightExpiry usEastern2021 1609513200000 = 1609545600000
  /\ midnightOver (fixedZone 0) 1609513200000 1609516800000 = false
  /\ midnightOver (fixedZone 0) 1609513200000 1609549200000 = true.
Proof. vm_compute. auto. Qed.

End ExpiryFacts.

(** ** Traces of computations *)
Section TraceFacts.
Context {V : Type}.
Implicit Types (P : @Effect V -> Prop).

Lemma trace_bind {A B} (m : M (V:=V) A) (k : A -> M B) :
  trace (bind m k)
  = trace m ++ match outcome m with
               | inr a => trace (k a)
               | inl _ => []
               end.
Proof.
  destruct m as [t [e | a]]; simpl.
  - now rewrite app_nil_r.
  - now destruct (k a).
Qed.

Lemma outcome_bind {A B} (m : M (V:=V) A) (k : A -> M B) :
  outcome (bind m k)
  = match outcome m with
    | inr a => outcome (k a)
    | inl e => inl e
    end.
Proof.
  destruct m as [t [e | a]]; simpl; trivial. now destruct (k a).
Qed.

Lemma trace_tryCatch {A} (m : M (V:=V) A) (h : Exn -> M A) :
  trace (tryCatch m h)
  = trace m ++ match outcome m with
               | inl e => trace (h e)
               | inr _ => []
               end.
Proof.
  destruct m as [t [e | a]]; simpl.
  - now destruct (h e).
  - now rewrite app_nil_r.
Qed.

Lemma outcome_tryCatch {A} (m : M (V:=V) A) (h : Exn -> M A) :
  outcome (tryCatch m h)
  = match outcome m with
    | inl e => outcome (h e)
    | inr a => inr a
    end.
Proof.
  destruct m as [t [e | a]]; simpl; trivial. now destruct (h e).
Qed.

Lemma M_eq {A} (m : M (V:=V) A) (t : list Effect) (o : Exn + A) :
  trace m = t -> outcome m = o -> m = (t, o).
Proof. destruct m. simpl. congruence. Qed.

Lemma bind_ext {A B} (m : M (V:=V) A) (k1 k2 : A -> M B) :
  (forall a, k1 a = k2 a) -> bind m k1 = bind m k2.
Proof.
  intros H. destruct m as [t [e | a]]; simpl; trivial. now rewrite H.
Qed.

Lemma bind_call_inr {A B} (a : A) (k : A -> M (V:=V) B) :
  bind (call (inr a)) k = k a.
Proof. unfold call, bind. now destruct (k a). Qed.

(** A property of every effect passes through the combinators. *)
Lemma Forall_trace_bind P {A B} (m : M (V:=V) A) (k : A -> M B) :
  Forall P (trace m) ->
  (forall a, outcome m = inr a -> Forall P (trace (k a))) ->
  Forall P (trace (bind m k)).
Proof.
  intros Hm Hk. rewrite trace_bind. apply Forall_app. split; trivial.
  destruct (outcome m); auto.
Qed.

Lemma Forall_trace_tryCatch P {A} (m : M (V:=V) A) (h : Exn -> M A) :
  Forall P (trace m) ->
  (forall e, outcome m = inl e -> Forall P (trace (h e))) ->
  Forall P (trace (tryCatch m h)).
Proof.
  intros Hm Hh. rewrite trace_tryCatch. apply Forall_app. split; trivial.
  destruct (outcome m); auto.
Qed.

Lemma Forall_trace_ret P {A} (a : A) : Forall P (trace (ret (V:=V) a)).
Proof. constructor. Qed.

Lemma Forall_trace_throw P {A} (e : Exn) :
  Forall P (trace (throw (V:=V) (A:=A) e)).
Proof. constructor. Qed.

Lemma Forall_trace_call P {A} (r : Exn + A) :
  Forall P (trace (call (V:=V) r)).
Proof. constructor. Qed.

Lemma Forall_trace_emit P (e : @Effect V) :
  P e -> Forall P (trace (emit e)).
Proof. intros H. repeat constructor. exact H. Qed.

Lemma Forall_trace_await P {A} (n : @Net V) (r : Exn + A) :
  P (Network n) -> Forall P (trace (await n r)).
Proof. intros H. repeat constructor. exact H. Qed.

End TraceFacts.

(** Walk through a computation, leaving the property to be shown of each
    effect it can carry out. *)
Ltac walk_trace :=
  repeat first
    [ apply Forall_trace_ret
    | apply Forall_trace_throw
    | apply Forall_trace_call
    | apply Forall_trace_emit
    | apply Forall_trace_await
    | apply Forall_trace_bind; [ | intros ? _ ]
    | apply Forall_trace_tryCatch; [ | intros ? _ ]
    | match goal with
      | |- Forall _ (trace (progress _)) => unfold progress
      | |- Forall _ (trace (match ?x with _ => _ end)) => destruct x
      end ].

(** Case analysis on every call whose result decides how a computation
    goes on. *)
Ltac split_calls :=
  cbn;
  repeat match goal with
         | |- context [match ?x with _ => _ end] =>
             lazymatch x with
             | context [match _ with _ => _ end] => fail
             | _ => destruct x eqn:?; cbn
             end
         end.

Section WithdrawFacts.
Context {V : Type}.
Variable w : World V.
Variable config : Config.
Variable identityStored : DepositRecord.

Local Open Scope string_scope.
Local Open Scope list_scope.

Lemma proofSteps_quiet (context : @Web3Context V) :
  Forall (fun e => quiet e = true)
         (trace (proofSteps w config identityStored context)).
Proof. unfold proofSteps. walk_trace; reflexivity. Qed.

Lemma catchBlock_calm (err : Exn) :
  Forall (fun e => calm e = true) (trace (catchBlock (V:=V) config err)).
Proof. unfold catchBlock. walk_trace; reflexivity. Qed.

Lemma quiet_calm (e : @Effect V) : quiet e = true -> calm e = true.
Proof. destruct e as [| | | | [] | |]; cbv; congruence. Qed.

Lemma quiet_no_post (e : @Effect V) : quiet e = true -> isPostApi e = false.
Proof. destruct e as [| | | | [] | |]; cbv; congruence. Qed.

Lemma calm_no_post (e : @Effect V) : calm e = true -> isPostApi e = false.
Proof. destruct e as [| | | | [] | |]; cbv; congruence. Qed.

Lemma calm_no_store (e : @Effect V) :
  calm e = true -> isStoreTxHash e = false.
Proof. destruct e as [| | | | [] | |]; cbv; congruence. Qed.

Lemma calm_no_txHash (e : @Effect V) :
  calm e = true -> isSetTxHash e = false.
Proof. destruct e as [| | | | [] | |]; cbv; congruence. Qed.

(** The [try] statement when the local check of the proof says no. *)
Lemma tryBlock_invalid_proof (context : @Web3Context V) (provider : V)
      (p : Proved) :
  outcome (proofSteps w config identityStored context) = inr p ->
  verifyProof w (verifyingKey p) (proof p) (publicSignals p) = inr false ->
  tryBlock w config identityStored context provider
  = ((trace (proofSteps w config identityStored context)
        ++ [Console (LogError (appError INVALID_PROOF));
            SetErrorMsg "Invalid proof."])%list,
     inr tt).
Proof.
  intros Hp Hv. unfold tryBlock.
  assert (Hbody : verifyAndSubmit w config identityStored provider p
                  = ([], inl (appError INVALID_PROOF)))
    by (unfold verifyAndSubmit; rewrite Hv; reflexivity).
  apply M_eq.
  - rewrite trace_tryCatch, trace_bind, outcome_bind, Hp, Hbody. simpl.
    now rewrite app_nil_r.
  - rewrite outcome_tryCatch, outcome_bind, Hp, Hbody. reflexivity.
Qed.

(** The second part of the [try] block writes the store only with the
    hash of a result the relayer has returned. *)
Lemma verifyAndSubmit_store (provider : V) (p : Proved)
      (r : DepositRecord) (h : string) :
  let t := trace (verifyAndSubmit w config identityStored provider p) in
  In (StoreTxHash r h) t ->
  r = identityStored
  /\ exists req, In (Network (PostApi req)) t
                 /\ postApi w req = inr (JResult h).
Proof.
  unfold verifyAndSubmit, handleResponse. split_calls;
    intros H; simpl in H; intuition (try discriminate);
    match goal with
    | H : StoreTxHash _ _ = StoreTxHash _ _ |- _ =>
        injection H as <- <-
    end.
  all: try reflexivity.
  all: eexists; split; [ | eassumption ]; simpl; tauto.
Qed.

Lemma verifyAndSubmit_txHash (provider : V) (p : Proved) (h : string) :
  let t := trace (verifyAndSubmit w config identityStored provider p) in
  In (SetTxHash h) t ->
  exists req, In (Network (PostApi req)) t
              /\ postApi w req = inr (JResult h).
Proof.
  unfold verifyAndSubmit, handleResponse. split_calls;
    intros H; simpl in H; intuition (try discriminate);
    match goal with
    | H : SetTxHash _ = SetTxHash _ |- _ => injection H as <-
    end.
  all: eexists; split; [ | eassumption ]; simpl; tauto.
Qed.

Lemma verifyAndSubmit_storeWrites (provider : V) (p : Proved) :
  (storeWrites (trace (verifyAndSubmit w config identityStored provider p))
   <= 1)%nat.
Proof.
  unfold verifyAndSubmit, handleResponse, storeWrites.
  split_calls; auto.
Qed.

Lemma storeWrites_app (t1 t2 : list (@Effect V)) :
  storeWrites (t1 ++ t2) = (storeWrites t1 + storeWrites t2)%nat.
Proof. unfold storeWrites. now rewrite filter_app, length_app. Qed.

Lemma storeWrites_calm (t : list (@Effect V)) :
  Forall (fun e => calm e = true) t -> storeWrites t = 0%nat.
Proof.
  unfold storeWrites. induction 1 as [| e t He _ IH]; simpl; trivial.
  now rewrite (calm_no_store e He).
Qed.

Lemma calm_not_store (t : list (@Effect V)) (r : DepositRecord) (h : string) :
  Forall (fun e => calm e = true) t -> ~ In (StoreTxHash r h) t.
Proof.
  intros Hc Hin. rewrite Forall_forall in Hc.
  specialize (Hc _ Hin). discriminate Hc.
Qed.

Lemma calm_not_txHash (t : list (@Effect V)) (h : string) :
  Forall (fun e => calm e = true) t -> ~ In (SetTxHash h) t.
Proof.
  intros Hc Hin. rewrite Forall_forall in Hc.
  specialize (Hc _ Hin). discriminate Hc.
Qed.

Lemma calm_not_post (t : list (@Effect V)) (req : Request) :
  Forall (fun e => calm e = true) t -> ~ In (Network (PostApi req)) t.
Proof.
  intros Hc Hin. rewrite Forall_forall in Hc.
  specialize (Hc _ Hin). discriminate Hc.
Qed.

Lemma Forall_quiet_calm (t : list (@Effect V)) :
  Forall (fun e => quiet e = true) t -> Forall (fun e => calm e = true) t.
Proof. apply Forall_impl. exact quiet_calm. Qed.

(** The trace of the [try] statement: the steps up to the proof, the
    check and the submission if these steps returned, the [catch] block
    if something was thrown. *)
Lemma trace_tryBlock (context : @Web3Context V) (provider : V) :
  trace (tryBlock w config identityStored context provider)
  = trace (proofSteps w config identityStored context)
    ++ submitted w config identityStored context provider
    ++ caught w config identityStored context provider.
Proof.
  unfold tryBlock, submitted, caught.
  now rewrite trace_tryCatch, trace_bind, <- app_assoc.
Qed.

Lemma submitted_cases (context : @Web3Context V) (provider : V) :
  submitted w config identityStored context provider = []
  \/ exists p,
      outcome (proofSteps w config identityStored context) = inr p
      /\ submitted w config identityStored context provider
         = trace (verifyAndSubmit w config identityStored provider p).
Proof.
  unfold submitted.
  destruct (outcome (proofSteps w config identityStored context)); eauto.
Qed.

Lemma caught_calm (context : @Web3Context V) (provider : V) :
  Forall (fun e => calm e = true)
         (caught w config identityStored context provider).
Proof.
  unfold caught. destruct (outcome _); [apply catchBlock_calm | constructor].
Qed.

(** The trace of [withdraw]: what precedes the [try] statement, then
    the [try] statement if it is reached. *)
Lemma trace_withdraw (context : @Web3Context V) :
  exists pre rest,
    trace (withdraw w config identityStored context) = pre ++ rest
    /\ Forall (fun e => quiet e = true) pre
    /\ (rest = []
        \/ exists provider,
             rest = trace (tryBlock w config identityStored context provider)).
Proof.
  unfold withdraw. split_calls.
  - eexists [_], []. repeat split; auto; repeat constructor.
  - eexists [_; _], []. repeat split; auto; repeat constructor.
  - eexists [_; _; _], _. split; [reflexivity | split].
    + repeat constructor.
    + right. eexists. match goal with H : tryBlock _ _ _ _ _ = _ |- _ =>
                         rewrite H end. reflexivity.
  - exists [], []. repeat split; auto.
Qed.

End WithdrawFacts.

(** ** Effects reaching the hooks and the store *)
Section PerformFacts.
Context {V : Type}.
Implicit Types (ses : @Session V) (t : list (@Effect V)).

Lemma performAll_app t1 t2 ses :
  performAll (t1 ++ t2) ses = performAll t2 (performAll t1 ses).
Proof. apply fold_left_app. Qed.

Lemma performAll_store t ses :
  Forall (fun e => isStoreTxHash e = false) t ->
  store (performAll t ses) = store ses.
Proof.
  intros H. revert ses.
  induction H as [| e t He _ IH]; intros ses; simpl; trivial.
  rewrite IH. now destruct e.
Qed.

Lemma performAll_txHash t ses :
  Forall (fun e => isSetTxHash e = false) t ->
  txHash (ui (performAll t ses)) = txHash (ui ses).
Proof.
  intros H. revert ses.
  induction H as [| e t He _ IH]; intros ses; simpl; trivial.
  rewrite IH. now destruct e.
Qed.

Lemma performAll_calm t ses :
  Forall (fun e => calm e = true) t ->
  store (performAll t ses) = store ses
  /\ txHash (ui (performAll t ses)) = txHash (ui ses).
Proof.
  intros H. split.
  - apply performAll_store. revert H. apply Forall_impl, calm_no_store.
  - apply performAll_txHash. revert H. apply Forall_impl, calm_no_txHash.
Qed.

Lemma performAll_withdrawCalls t ses :
  withdrawCalls (performAll t ses) = withdrawCalls ses.
Proof. revert ses. induction t as [| e t IH]; intros; simpl; trivial.
       now rewrite IH. Qed.

End PerformFacts.

Section StoreFacts.

Lemma sameRecord_refl (r : DepositRecord) : sameRecord r r = true.
Proof.
  unfold sameRecord.
  rewrite !Z.eqb_refl, String.eqb_refl. simpl.
  destruct (withdrawTxHash r); simpl; trivial. apply String.eqb_refl.
Qed.

(** The record handed to [updateWithdrawTxHash] carries the hash
    afterwards. *)
Lemma updateWithdrawTxHash_In (r : DepositRecord) (h : string)
      (store0 : Store) :
  In r store0 -> In (withTxHash r h) (updateWithdrawTxHash r h store0).
Proof.
  intros Hin. unfold updateWithdrawTxHash.
  apply in_map_iff. exists r. now rewrite sameRecord_refl.
Qed.

End StoreFacts.

(** ** Properties of one call of [withdraw] *)
Section WithdrawProperties.
Context {V : Type}.
Variable w : World V.
Variable config : Config.
Variable identityStored : DepositRecord.

Local Open Scope string_scope.
Local Open Scope list_scope.

(** C2: when the local verification of the proof (step 15) returns
    false, the attempt throws INVALID_PROOF, the [catch] block reports
    "Invalid proof.", and no request is posted to the relayer anywhere in
    the run. *)
Theorem invalid_proof_is_never_submitted
        (context : @Web3Context V) (provider : V) (p : Proved) :
  outcome (proofSteps w config identityStored context) = inr p ->
  verifyProof w (verifyingKey p) (proof p) (publicSignals p) = inr false ->
  outcome (bind (proofSteps w config identityStored context)
                (verifyAndSubmit w config identityStored provider))
  = inl (appError INVALID_PROOF)
  /\ tryBlock w config identityStored context provider
     = (trace (proofSteps w config identityStored context)
          ++ [Console (LogError (appError INVALID_PROOF));
              SetErrorMsg "Invalid proof."],
        inr tt)
  /\ Forall (fun e => isPostApi e = false)
            (trace (withdraw w config identityStored context)).
Proof.
  intros Hp Hv. split; [ | split].
  - rewrite outcome_bind, Hp. unfold verifyAndSubmit. now rewrite Hv.
  - eapply tryBlock_invalid_proof; eassumption.
  - destruct (trace_withdraw w config identityStored context)
      as (pre & rest & -> & Hpre & Hrest).
    apply Forall_app. split.
    + revert Hpre. apply Forall_impl, quiet_no_post.
    + destruct Hrest as [-> | [provider' ->]]; [constructor | ].
      rewrite (tryBlock_invalid_proof w config identityStored
                 context provider' p Hp Hv).
      cbn [trace fst]. apply Forall_app. split.
      * generalize (proofSteps_quiet w config identityStored context).
        apply Forall_impl, quiet_no_post.
      * repeat constructor.
Qed.

(** Every write to the store in a run carries the hash of a result that
    the relayer returned to a request posted in that run. *)
Lemma withdraw_store_confirmed (context : @Web3Context V)
      (r : DepositRecord) (h : string) :
  let t := trace (withdraw w config identityStored context) in
  In (StoreTxHash r h) t ->
  r = identityStored
  /\ exists req, In (Network (PostApi req)) t
                 /\ postApi w req = inr (JResult h).
Proof.
  cbv zeta.
  destruct (trace_withdraw w config identityStored context)
    as (pre & rest & -> & Hpre & Hrest).
  intros Hin. apply in_app_or in Hin. destruct Hin as [Hin | Hin].
  { exfalso. revert Hin. apply calm_not_store, Forall_quiet_calm, Hpre. }
  destruct Hrest as [-> | [provider ->]]; [destruct Hin | ].
  rewrite trace_tryBlock in Hin |- *.
  apply in_app_or in Hin. destruct Hin as [Hin | Hin].
  { exfalso. revert Hin.
    apply calm_not_store, Forall_quiet_calm, proofSteps_quiet. }
  apply in_app_or in Hin. destruct Hin as [Hin | Hin].
  2:{ exfalso. revert Hin. apply calm_not_store, caught_calm. }
  destruct (submitted_cases w config identityStored context provider)
    as [Hs | (p & _ & Hs)]; rewrite Hs in Hin |- *; [destruct Hin | ].
  destruct (verifyAndSubmit_store w config identityStored provider p r h Hin)
    as (-> & req & Hreq & Hpost).
  split; trivial. exists req. split; trivial.
  apply in_or_app. right. apply in_or_app. right.
  apply in_or_app. now left.
Qed.

Lemma withdraw_storeWrites (context : @Web3Context V) :
  (storeWrites (trace (withdraw w config identityStored context)) <= 1)%nat.
Proof.
  destruct (trace_withdraw w config identityStored context)
    as (pre & rest & -> & Hpre & Hrest).
  rewrite storeWrites_app, (storeWrites_calm pre (Forall_quiet_calm _ Hpre)).
  destruct Hrest as [-> | [provider ->]]; [auto | ].
  rewrite trace_tryBlock, !storeWrites_app.
  rewrite (storeWrites_calm _ (Forall_quiet_calm _
             (proofSteps_quiet w config identityStored context))).
  rewrite (storeWrites_calm _
             (caught_calm w config identityStored context provider)).
  destruct (submitted_cases w config identityStored context provider)
    as [-> | (p & _ & ->)]; [auto | ].
  pose proof (verifyAndSubmit_storeWrites w config identityStored provider p).
  lia.
Qed.

(** The second part of the [try] block when the proof passes the local
    check and the relayer returns a result. *)
Lemma verifyAndSubmit_success (provider : V) (p : Proved) (prm : V)
      (h : string) :
  verifyProof w (verifyingKey p) (proof p) (publicSignals p) = inr true ->
  genMixParams w (signal p) (proof p) (recipientAddress identityStored)
               (feeAmtWei config) (publicSignals p) = inr prm ->
  postApi w (mixRequest w prm) = inr (JResult h) ->
  exists tail,
    trace (verifyAndSubmit w config identityStored provider p)
    = [SetProofGenProgress "Sending JSON-RPC call to the relayer...";
       Console (LogRequest (mixRequest w prm));
       Network (PostApi (mixRequest w prm));
       SetProofGenProgress "";
       SetTxHash h;
       Console (LogTxHash h);
       StoreTxHash identityStored h;
       Sleep 4000;
       Network (GetBalance (recipientAddress identityStored))] ++ tail
    /\ Forall (fun e => calm e = true) tail.
Proof.
  intros Hv Hm Hr. unfold verifyAndSubmit. rewrite Hv, Hm. cbn.
  rewrite Hr. cbn.
  destruct (getBalanceAfter w provider (recipientAddress identityStored)).
  - exists []. split; [reflexivity | constructor].
  - eexists [_]. split; [reflexivity | repeat constructor].
Qed.

(** C4: when the steps up to the proof return, the proof passes the
    local check and the relayer answers the request with a result that
    carries the hash [h], the run sets the transaction hash to [h] and
    writes the store once, for the record at hand and with [h]: after
    the run the hook holds [h] and the stored record carries [h]. *)
Theorem relayer_result_is_recorded
        (context : @Web3Context V) (conn provider balance : V)
        (p : Proved) (prm : V) (h : string) :
  connector context = Some conn ->
  getProvider w conn (chainId config) = inr provider ->
  getBalanceBefore w provider (recipientAddress identityStored)
  = inr balance ->
  outcome (proofSteps w config identityStored context) = inr p ->
  verifyProof w (verifyingKey p) (proof p) (publicSignals p) = inr true ->
  genMixParams w (signal p) (proof p) (recipientAddress identityStored)
               (feeAmtWei config) (publicSignals p) = inr prm ->
  postApi w (mixRequest w prm) = inr (JResult h) ->
  let t := trace (withdraw w config identityStored context) in
  In (SetTxHash h) t
  /\ In (StoreTxHash identityStored h) t
  /\ storeWrites t = 1%nat
  /\ forall ses : @Session V,
      txHash (ui (performAll t ses)) = h
      /\ store (performAll t ses)
         = updateWithdrawTxHash identityStored h (store ses)
      /\ (In identityStored (store ses) ->
          In (withTxHash identityStored h) (store (performAll t ses))).
Proof.
  intros Hc Hprov Hbal Hp Hv Hm Hr. cbv zeta.
  destruct (verifyAndSubmit_success provider p prm h Hv Hm Hr)
    as (tail & Htrace & Htail).
  pose proof (proofSteps_quiet w config identityStored context) as Hsteps.
  apply Forall_quiet_calm in Hsteps.
  pose proof (caught_calm w config identityStored context provider) as Hcaught.
  assert (Ht : trace (withdraw w config identityStored context)
               = [Network (GetProvider (chainId config));
                  Network (GetBalance (recipientAddress identityStored));
                  Console (LogBalance balance)]
                 ++ trace (tryBlock w config identityStored context provider)).
  { unfold withdraw. rewrite Hc. cbn. rewrite Hprov. cbn. rewrite Hbal. cbn.
    now destruct (tryBlock w config identityStored context provider). }
  assert (Hsub : submitted w config identityStored context provider
                 = trace (verifyAndSubmit w config identityStored provider p))
    by (unfold submitted; now rewrite Hp).
  rewrite Ht, trace_tryBlock, Hsub, Htrace.
  set (t0 := trace (proofSteps w config identityStored context)) in *.
  set (tc := caught w config identityStored context provider) in *.
  split; [ | split; [ | split]].
  - apply in_or_app. right. apply in_or_app. right. simpl. tauto.
  - apply in_or_app. right. apply in_or_app. right. simpl. tauto.
  - rewrite !storeWrites_app, (storeWrites_calm t0 Hsteps),
      (storeWrites_calm tail Htail), (storeWrites_calm tc Hcaught).
    reflexivity.
  - intros ses.
    assert (Hstore : store (performAll
               ([Network (GetProvider (chainId config));
                 Network (GetBalance (recipientAddress identityStored));
                 Console (LogBalance balance)] ++
                t0 ++ ([SetProofGenProgress "Sending JSON-RPC call to the relayer...";
                  Console (LogRequest (mixRequest w prm));
                  Network (PostApi (mixRequest w prm));
                  SetProofGenProgress ""; SetTxHash h;
                  Console (LogTxHash h); StoreTxHash identityStored h;
                  Sleep 4000;
                  Network (GetBalance (recipientAddress identityStored))]
                 ++ tail) ++ tc) ses)
             = updateWithdrawTxHash identityStored h (store ses)).
    { rewrite !performAll_app.
      rewrite (proj1 (performAll_calm tc _ Hcaught)).
      rewrite (proj1 (performAll_calm tail _ Htail)).
      cbn. now rewrite (proj1 (performAll_calm t0 _ Hsteps)). }
    split; [ | split].
    + rewrite !performAll_app.
      rewrite (proj2 (performAll_calm tc _ Hcaught)).
      rewrite (proj2 (performAll_calm tail _ Htail)).
      reflexivity.
    + exact Hstore.
    + intros Hin. rewrite Hstore. now apply updateWithdrawTxHash_In.
Qed.

End WithdrawProperties.

(** ** The latch *)

(** A call of [withdraw] stays folded in what follows. *)
Arguments withdraw : simpl never.
Arguments Expiry.midnightOver : simpl never.

Section SessionFacts.
Context {V : Type}.
Variable tz : JsDate.TimeZone.
Variable config : Config.
Variable w : World V.
Implicit Types (ses : @Session V) (ev : @Event V).

Lemma nextEffect_length (k : nat) (runs runs' : list (list (@Effect V)))
      (e : @Effect V) :
  nextEffect k runs = Some (e, runs') ->
  List.length runs' = List.length runs.
Proof.
  revert k runs' e. induction runs as [| r others IH]; intros k runs' e H.
  - destruct k; discriminate H.
  - destruct k as [| k'].
    + destruct r as [| e0 rest]; [discriminate H | ].
      injection H as _ <-. reflexivity.
    + simpl in H. destruct r as [| e0 rest];
        (destruct (nextEffect k' others) as [[e1 others'] |] eqn:Hn;
         [ | discriminate H ]);
        injection H as _ <-; simpl; f_equal; eapply IH; eassumption.
Qed.

Lemma withdrawStarted_perform (e : @Effect V) ses :
  withdrawStarted (ui (perform e ses)) = withdrawStarted (ui ses).
Proof. now destruct e. Qed.

Lemma autoTrigger_not_started (s : State) (c : @Web3Context V)
      (midnightOver : bool) (timer : Timer) :
  autoTrigger s c midnightOver timer = true -> withdrawStarted s = false.
Proof.
  unfold autoTrigger. destruct (withdrawStarted s); [discriminate | trivial].
Qed.

Lemma render_started ses r c timer :
  withdrawStarted (ui ses) = true -> render tz config w r c timer ses = ses.
Proof.
  intros Hs. unfold render.
  destruct (autoTrigger _ _ _ _) eqn:Ha; trivial.
  apply autoTrigger_not_started in Ha. congruence.
Qed.

Lemma latched_step ses ev : latched ses -> latched (step tz config w ses ev).
Proof.
  intros H. destruct ev as [| r c timer | r c | | k]; cbn [step].
  - unfold onExpire. destruct (negb (countdownDone (ui ses))); exact H.
  - unfold render. destruct (autoTrigger _ _ _ _) eqn:Ha; trivial.
    apply autoTrigger_not_started in Ha.
    destruct H as [(Hs & Hc & Hf) | (Hs & Hc & Hf)]; [ | congruence].
    right. unfold callWithdraw, withUi. cbn. rewrite Hc, Hf. auto.
  - unfold onClick.
    destruct H as [(Hs & Hc & Hf) | (Hs & Hc & Hf)]; rewrite Hs;
      cbn [negb].
    + right. unfold callWithdraw, withUi.
      destruct (showAdvanced (ui ses)); cbn; rewrite Hc, Hf; auto.
    + right. unfold withUi. destruct (showAdvanced (ui ses)); cbn; auto.
  - exact H.
  - unfold resume.
    destruct (nextEffect k (inFlight ses)) as [[e runs'] |] eqn:Hn; trivial.
    pose proof (nextEffect_length _ _ _ _ Hn) as Hlen.
    destruct H as [(Hs & Hc & Hf) | (Hs & Hc & Hf)].
    + rewrite Hf in Hn. destruct k; discriminate Hn.
    + right. rewrite withdrawStarted_perform. cbn.
      repeat split; trivial. congruence.
Qed.

Lemma run_cons ses ev (evs : list (@Event V)) :
  run tz config w ses (ev :: evs)
  = run tz config w (step tz config w ses ev) evs.
Proof. reflexivity. Qed.

Lemma latched_run ses (evs : list (@Event V)) :
  latched ses -> latched (run tz config w ses evs).
Proof.
  revert ses. induction evs as [| ev evs IH]; intros ses H; trivial.
  rewrite run_cons. apply IH, latched_step, H.
Qed.

Lemma latched_initial (now : Z) (store0 : Store) :
  latched (initialSession (V:=V) now store0).
Proof. left. repeat split. Qed.

Lemma run_app ses (evs1 evs2 : list (@Event V)) :
  run tz config w ses (evs1 ++ evs2)
  = run tz config w (run tz config w ses evs1) evs2.
Proof. apply fold_left_app. Qed.

(** Once [withdraw] has been called the count stays at one. *)
Lemma called_once_run ses (evs : list (@Event V)) :
  latched ses -> withdrawCalls ses = 1%nat ->
  withdrawCalls (run tz config w ses evs) = 1%nat.
Proof.
  intros H Hc.
  assert (Hs : withdrawStarted (ui ses) = true)
    by (destruct H as [(_ & H0 & _) | (Hs & _)]; [congruence | exact Hs]).
  revert ses H Hc Hs.
  induction evs as [| ev evs IH]; intros; trivial.
  rewrite run_cons.
  pose proof (latched_step ses ev H) as H'.
  assert (Hs' : withdrawStarted (ui (step tz config w ses ev)) = true).
  { destruct ev as [| r c timer | r c | | k]; cbn [step].
    - unfold onExpire. now destruct (negb (countdownDone (ui ses))).
    - now rewrite render_started.
    - unfold onClick, withUi. rewrite Hs.
      now destruct (showAdvanced (ui ses)).
    - exact Hs.
    - unfold resume. destruct (nextEffect k (inFlight ses)) as [[e runs'] |];
        trivial. now rewrite withdrawStarted_perform. }
  apply IH; trivial.
  destruct H' as [(Hf & _) | (_ & Hc' & _)]; congruence.
Qed.

(** C1: in a session [withdraw] is called at most once, whatever the
    order of timer expiries, renders, clicks and steps of the run in
    flight; after a click on the button the count is exactly one and
    stays so, so a second click while the first run is still going
    starts nothing. *)
Theorem at_most_one_withdraw (now : Z) (store0 : Store) :
  (forall evs : list (@Event V),
      let ses := run tz config w (initialSession now store0) evs in
      (withdrawCalls ses <= 1)%nat
      /\ (List.length (inFlight ses) <= 1)%nat)
  /\ (forall (evs1 evs2 : list (@Event V)) r c,
         withdrawCalls (run tz config w (initialSession now store0)
                            (evs1 ++ ClickWithdraw r c :: evs2)) = 1%nat)
  /\ (forall (evs1 evs2 : list (@Event V)) r1 c1 r2 c2,
         let ses1 := run tz config w (initialSession now store0)
                         (evs1 ++ ClickWithdraw r1 c1 :: evs2) in
         withdrawCalls (step tz config w ses1 (ClickWithdraw r2 c2))
         = withdrawCalls ses1
         /\ inFlight (step tz config w ses1 (ClickWithdraw r2 c2))
            = inFlight ses1).
Proof.
  assert (Hclick : forall (evs1 : list (@Event V)) r c,
             let ses := step tz config w
                             (run tz config w (initialSession now store0) evs1)
                             (ClickWithdraw r c) in
             latched ses /\ withdrawCalls ses = 1%nat).
  { intros evs1 r c.
    pose proof (latched_run _ evs1 (latched_initial now store0)) as H.
    split; [apply latched_step, H | ].
    cbn [step]. unfold onClick, callWithdraw, withUi.
    destruct H as [(Hs & Hc & Hf) | (Hs & Hc & Hf)]; rewrite Hs;
      destruct (showAdvanced (ui _)); cbn; congruence. }
  split; [ | split].
  - intros evs. cbv zeta.
    destruct (latched_run _ evs (latched_initial now store0))
      as [(_ & Hc & Hf) | (_ & Hc & Hf)]; rewrite Hc, Hf; simpl; lia.
  - intros evs1 evs2 r c. rewrite run_app, run_cons.
    destruct (Hclick evs1 r c) as [Hl Hc]. now apply called_once_run.
  - intros evs1 evs2 r1 c1 r2 c2. cbv zeta.
    rewrite run_app, run_cons.
    destruct (Hclick evs1 r1 c1) as [Hl Hc].
    pose proof (latched_run _ evs2 Hl) as Hl2.
    pose proof (called_once_run _ evs2 Hl Hc) as Hc2.
    set (ses1 := run tz config w _ evs2) in *.
    destruct Hl2 as [(_ & H0 & _) | (Hs & _)]; [congruence | ].
    cbn [step]. unfold onClick, withUi. rewrite Hs.
    destruct (showAdvanced (ui ses1)); cbn; auto.
Qed.

End SessionFacts.

(** ** A trigger without a connector *)
Section NoConnector.
Context {V : Type}.
Variable tz : JsDate.TimeZone.
Variable config : Config.
Variable w : World V.
Implicit Types (ses : @Session V) (ev : @Event V).

Lemma withdraw_no_connector (r : DepositRecord) (c : @Web3Context V) :
  connector c = None -> withdraw w config r c = ([], inr tt).
Proof. intros H. unfold withdraw. now rewrite H. Qed.

Lemma nextEffect_idle (k : nat) : nextEffect (V:=V) k [[]] = None.
Proof. destruct k as [| [| k']]; reflexivity. Qed.

Lemma stuck_step (calls : nat) ses0 ses ev :
  stuck calls ses0 ses -> stuck calls ses0 (step tz config w ses ev).
Proof.
  intros H. destruct ev as [| r c timer | r c | | k]; cbn [step].
  - unfold onExpire.
    destruct (negb (countdownDone (ui ses))); exact H.
  - rewrite render_started; [exact H | apply H].
  - unfold onClick, withUi, stuck in *.
    destruct H as (Hs & Hf & Hc & Hp & Hst & Ht & He & Hg). rewrite Hs.
    destruct (showAdvanced (ui ses)); cbn; auto 10.
  - exact H.
  - unfold resume. destruct H as (Hs & Hf & H).
    rewrite Hf, nextEffect_idle. repeat split; trivial; apply H.
Qed.

Lemma stuck_run (calls : nat) ses0 ses (evs : list (@Event V)) :
  stuck calls ses0 ses -> stuck calls ses0 (run tz config w ses evs).
Proof.
  revert ses. induction evs as [| ev evs IH]; intros ses H; trivial.
  rewrite run_cons. apply IH, stuck_step, H.
Qed.

(** C10: when the context has no connector, [withdraw] returns at once
    with no effect at all; the click that called it has set
    [withdrawStarted] all the same, and whatever happens afterwards in
    the session, [withdraw] is not called again and the transaction
    hash, the error message, the progress line and the store stay as
    they were. *)
Theorem no_connector_leaves_attempt_stuck
        ses (r : DepositRecord) (c : @Web3Context V)
        (evs : list (@Event V)) :
  connector c = None ->
  withdrawStarted (ui ses) = false ->
  inFlight ses = [] ->
  withdraw w config r c = ([], inr tt)
  /\ let ses' := run tz config w (step tz config w ses (ClickWithdraw r c))
                     evs in
     withdrawStarted (ui ses') = true
     /\ withdrawCalls ses' = S (withdrawCalls ses)
     /\ performed ses' = performed ses
     /\ store ses' = store ses
     /\ txHash (ui ses') = txHash (ui ses)
     /\ errorMsg (ui ses') = errorMsg (ui ses)
     /\ proofGenProgress (ui ses') = proofGenProgress (ui ses).
Proof.
  intros Hc Hs Hf. split; [now apply withdraw_no_connector | ].
  cbv zeta.
  assert (H : stuck (S (withdrawCalls ses)) ses
                    (step tz config w ses (ClickWithdraw r c))).
  { cbn [step]. unfold onClick, callWithdraw, withUi, stuck.
    rewrite Hs, (withdraw_no_connector r c Hc), Hf.
    destruct (showAdvanced (ui ses)); cbn; auto 10. }
  destruct (stuck_run _ _ _ evs H) as (H1 & _ & H2 & H3 & H4 & H5 & H6 & H7).
  auto 10.
Qed.

End NoConnector.

(** ** The store over a session *)
Section SessionStore.
Context {V : Type}.
Variable tz : JsDate.TimeZone.
Variable config : Config.
Variable w : World V.
Implicit Types (ses : @Session V) (ev : @Event V).

Lemma performAll_snoc (t : list (@Effect V)) (e : @Effect V) ses :
  performAll (t ++ [e]) ses = perform e (performAll t ses).
Proof. now rewrite performAll_app. Qed.

Lemma tracked_initial (now : Z) (store0 : Store) :
  tracked config w now store0 (initialSession now store0).
Proof. split; [reflexivity | left; repeat split]. Qed.

Lemma tracked_step (now : Z) (store0 : Store) ses ev :
  tracked config w now store0 ses ->
  tracked config w now store0 (step tz config w ses ev).
Proof.
  intros [Hst H]. destruct ev as [| r c timer | r c | | k]; cbn [step].
  - unfold onExpire.
    destruct (negb (countdownDone (ui ses))); split; assumption.
  - unfold render. destruct (autoTrigger _ _ _ _) eqn:Ha;
      [ | split; assumption].
    apply autoTrigger_not_started in Ha.
    destruct H as [(Hs & Hf & Hp) | (Hs & _)]; [ | congruence].
    split; [exact Hst | right]. split; [reflexivity | ].
    exists r, c, (trace (withdraw w config r c)).
    unfold callWithdraw, withUi. cbn. rewrite Hf, Hp. auto.
  - unfold onClick.
    destruct H as [(Hs & Hf & Hp) | (Hs & r0 & c0 & rest & Hf & Hp)];
      rewrite Hs; cbn [negb].
    + split; [destruct (showAdvanced (ui ses)); exact Hst | right].
      split; [now destruct (showAdvanced (ui ses)) | ].
      exists r, c, (trace (withdraw w config r c)).
      unfold callWithdraw, withUi.
      destruct (showAdvanced (ui ses)); cbn; rewrite Hf, Hp; auto.
    + split; [destruct (showAdvanced (ui ses)); exact Hst | right].
      split; [now destruct (showAdvanced (ui ses)) | ].
      exists r0, c0, rest.
      destruct (showAdvanced (ui ses)); cbn; auto.
  - split; assumption.
  - unfold resume.
    destruct (nextEffect k (inFlight ses)) as [[e runs'] |] eqn:Hn;
      [ | split; assumption].
    destruct H as [(Hs & Hf & Hp) | (Hs & r0 & c0 & rest & Hf & Hp)].
    { rewrite Hf in Hn. destruct k; discriminate Hn. }
    rewrite Hf in Hn.
    destruct k as [| k']; [ | destruct rest, k'; discriminate Hn].
    destruct rest as [| e0 rest']; [discriminate Hn | ].
    injection Hn as <- <-.
    split.
    + cbn [perform store performed]. rewrite performAll_snoc.
      cbn [perform store]. now rewrite Hst.
    + right. rewrite withdrawStarted_perform. cbn. split; trivial.
      exists r0, c0, rest'. split; trivial.
      now rewrite <- app_assoc.
Qed.

Lemma tracked_run (now : Z) (store0 : Store) (evs : list (@Event V)) :
  tracked config w now store0
          (run tz config w (initialSession now store0) evs).
Proof.
  assert (H : forall ses, tracked config w now store0 ses ->
                          tracked config w now store0
                                  (run tz config w ses evs)).
  { induction evs as [| ev evs IH]; intros ses H; trivial.
    rewrite run_cons. apply IH, tracked_step, H. }
  apply H, tracked_initial.
Qed.

Lemma storeWrites_prefix (t1 t2 : list (@Effect V)) :
  (storeWrites t1 <= storeWrites (t1 ++ t2))%nat.
Proof. rewrite storeWrites_app. lia. Qed.

(** C5: a run of [withdraw] writes the store at most once, and only with
    the hash of a result the relayer returned in that run; a run in which
    the relayer returned no result (a step failed, or the relayer answered
    with an error such as the pre-broadcast rejection) leaves the store as
    it was.  Over a whole session the store is written at most once, only
    with such a hash, and not at all when the relayer returns no
    result. *)
Theorem store_written_only_on_success
        (identityStored : DepositRecord) (context : @Web3Context V) :
  let t := trace (withdraw w config identityStored context) in
  (storeWrites t <= 1)%nat
  /\ (forall r h, In (StoreTxHash r h) t ->
                  r = identityStored
                  /\ exists req, In (Network (PostApi req)) t
                                 /\ postApi w req = inr (JResult h))
  /\ ((forall req h, In (Network (PostApi req)) t ->
                     postApi w req <> inr (JResult h)) ->
      forall ses, store (performAll t ses) = store ses)
  /\ (forall now store0 (evs : list (@Event V)),
         let ses := run tz config w (initialSession now store0) evs in
         (storeWrites (performed ses) <= 1)%nat
         /\ (forall r h, In (StoreTxHash r h) (performed ses) ->
                         exists req, postApi w req = inr (JResult h))
         /\ ((forall req h, postApi w req <> inr (JResult h)) ->
             store ses = store0)).
Proof.
  cbv zeta. split; [ | split; [ | split]].
  - apply withdraw_storeWrites.
  - apply withdraw_store_confirmed.
  - intros Hfail ses. apply performAll_store, Forall_forall.
    intros e He. destruct e as [| | | r h | | |]; trivial.
    destruct (withdraw_store_confirmed w config identityStored context r h He)
      as (_ & req & Hreq & Hpost).
    now destruct (Hfail req h Hreq).
  - intros now store0 evs.
    destruct (tracked_run now store0 evs) as [Hst H].
    set (ses := run tz config w (initialSession now store0) evs) in *.
    assert (Hconf : forall r h, In (StoreTxHash r h) (performed ses) ->
                                exists req, postApi w req = inr (JResult h)).
    { intros r h Hin.
      destruct H as [(_ & _ & Hp) | (_ & r0 & c0 & rest & _ & Hp)].
      - rewrite Hp in Hin. destruct Hin.
      - assert (Hin' : In (StoreTxHash r h) (trace (withdraw w config r0 c0)))
          by (rewrite <- Hp; apply in_or_app; now left).
        destruct (withdraw_store_confirmed w config r0 c0 r h Hin')
          as (_ & req & _ & Hpost).
        now exists req. }
    split; [ | split; [exact Hconf | ]].
    + destruct H as [(_ & _ & Hp) | (_ & r0 & c0 & rest & _ & Hp)].
      * rewrite Hp. auto.
      * pose proof (storeWrites_prefix (performed ses) rest) as Hle.
        rewrite Hp in Hle.
        pose proof (withdraw_storeWrites w config r0 c0). lia.
    + intros Hfail. rewrite Hst. apply performAll_store, Forall_forall.
      intros e He. destruct e as [| | | r h | | |]; trivial.
      destruct (Hconf r h He) as (req & Hpost).
      now destruct (Hfail req h).
Qed.
End SessionStore.

(** ** The two Merkle look-ups of step 5 *)
Section TreeLookup.
Context {V : Type}.
Variable w : World V.
Variable config : Config.
Variable identityStored : DepositRecord.

Lemma proofSteps_tree_lookup (context : @Web3Context V)
      (i1 i2 : V) (p1 p2 : V * V) :
  proofSteps (withTreeLookup w i1 p1) config identityStored context
  = proofSteps (withTreeLookup w i2 p2) config identityStored context.
Proof.
  unfold proofSteps. cbn [withTreeLookup getMixerContract address getLeaves
    genTree genPubKey genIdentityCommitment genPathElementsAndIndex
    element_index path].
  repeat (apply bind_ext; intros ?).
  match goal with
  | |- (let '(_, _) := ?x in _) = _ => destruct x
  end.
  now rewrite !bind_call_inr.
Qed.

(** C6 (as the code has it): the leaf index and the path that the tree
    object returns are computed and then left aside; whatever values the
    two look-ups return, the run of [withdraw] is the same, so a
    disagreement with the path finder changes nothing. *)
Theorem tree_lookup_is_unused (context : @Web3Context V)
        (i1 i2 : V) (p1 p2 : V * V) :
  withdraw (withTreeLookup w i1 p1) config identityStored context
  = withdraw (withTreeLookup w i2 p2) config identityStored context.
Proof.
  unfold withdraw, tryBlock.
  rewrite (proofSteps_tree_lookup context i1 i2 p1 p2).
  reflexivity.
Qed.

End TreeLookup.

(** ** The expiry instant *)
Section ExpiryProperties.
Import JsDate Expiry ExpiryFacts.

(** C3: the expiry follows the local calendar of the machine.  For a
    deposit at 15:00 UTC on 14 March 2021 a machine on US Eastern time
    computes 23:00 UTC of the same day, an hour before the UTC midnight
    that a machine on UTC computes; for a deposit at 15:00 UTC on
    7 November 2021 it computes 01:00 UTC, an hour after it. *)
Theorem midnight_expiry_follows_local_calendar :
  midnightExpiry usEastern2021 1615734000000 = 1615762800000
  /\ midnightExpiry (fixedZone 0) 1615734000000 = 1615766400000
  /\ nextUtcMidnight 1615734000000 = 1615766400000
  /\ midnightExpiry usEastern2021 1636297200000 = 1636333200000
  /\ midnightExpiry (fixedZone 0) 1636297200000 = 1636329600000
  /\ nextUtcMidnight 1636297200000 = 1636329600000.
Proof. vm_compute. repeat split. Qed.

End ExpiryProperties.

(** ** Runs on sample inputs *)
Section Scenarios.
Import JsDate Expiry.
Local Open Scope string_scope.
Local Open Scope list_scope.

(** C6 (as stated): the path finder answers elements 1 and index 2, the
    tree object answers leaf index 7 and the path (3, 4); the two
    disagree, yet the run goes through to the relayer, records the hash
    and reports no error. *)
Lemma merkle_mismatch_goes_unnoticed :
  let w := Sample.world (1, 2)%nat 7%nat (3, 4)%nat true (JResult "0xabc") in
  let m := withdraw w Sample.config Sample.deposit Sample.connected in
  genPathElementsAndIndex w 104%nat 106%nat = inr (1, 2)%nat
  /\ element_index w 104%nat 106%nat = inr 7%nat
  /\ path w 104%nat 7%nat = inr (3, 4)%nat
  /\ (1, 2)%nat <> (3, 4)%nat
  /\ outcome m = inr tt
  /\ existsb isSetErrorMsg (trace m) = false
  /\ In (Network (PostApi (mixRequest w 115%nat))) (trace m)
  /\ In (SetTxHash "0xabc") (trace m)
  /\ In (StoreTxHash Sample.deposit "0xabc") (trace m).
Proof.
  vm_compute. repeat split; try discriminate; tauto.
Qed.

(** C7: the countdown has run out on a page loaded before midnight and
    the wallet is on the wrong network, so the context carries an error;
    the body of the component calls [withdraw] all the same and the run
    goes through to the relayer.  The button is not rendered for that
    context. *)
Theorem auto_trigger_ignores_connection_error :
  let w := Sample.world (1, 2)%nat 7%nat (1, 2)%nat true (JResult "0xabc") in
  let ses0 := initialSession (V:=nat) 1609516800000 [Sample.deposit] in
  let ses := run (fixedZone 0) Sample.config w ses0
                 [Expire;
                  Render Sample.deposit Sample.wrongNetwork Sample.zeroTimer] in
  error Sample.wrongNetwork = Some "UNSUPPORTED_NETWORK"
  /\ withdrawCalls ses = 1%nat
  /\ inFlight ses
     = [trace (withdraw w Sample.config Sample.deposit Sample.wrongNetwork)]
  /\ existsb isPostApi
             (trace (withdraw w Sample.config Sample.deposit
                              Sample.wrongNetwork)) = true
  /\ buttonShown (ui ses0) Sample.wrongNetwork true = false
  /\ advancedButtonShown (setShowAdvanced true (ui ses0))
                         Sample.wrongNetwork false = false.
Proof. vm_compute. repeat split. Qed.

(** C8: the relayer answers with an error whose name is not the
    pre-broadcast one; the run ends without an exception and without an
    error message, and once all its effects are carried out the page
    shows no error and no transaction hash and the progress line still
    reads that the request is being sent. *)
Theorem unrecognized_relayer_error_is_dropped :
  let w := Sample.world (1, 2)%nat 7%nat (1, 2)%nat true
                        (JError "BACKEND_MIX_TX_REVERTED") in
  let m := withdraw w Sample.config Sample.deposit Sample.connected in
  let ses := performAll (trace m)
                        (initialSession 1609549200000 [Sample.deposit]) in
  existsb isPostApi (trace m) = true
  /\ outcome m = inr tt
  /\ existsb isSetErrorMsg (trace m) = false
  /\ errorMsg (ui ses) = ""
  /\ txHash (ui ses) = ""
  /\ proofGenProgress (ui ses) = "Sending JSON-RPC call to the relayer...".
Proof. vm_compute. repeat split. Qed.

End Scenarios.

(** ** The triggers and the context *)
Section TriggerFacts.
Context {V : Type}.

(** The automatic trigger fires only with the latch open, the countdown
    done, a page loaded before the midnight expiry and a timer at
    zero. *)
Lemma autoTrigger_true (s : State) (c : @Web3Context V)
      (midnightOver : bool) (timer : Timer) :
  autoTrigger s c midnightOver timer = true ->
  withdrawStarted s = false /\ countdownDone s = true
  /\ midnightOver = false
  /\ days timer + hours timer + minutes timer + seconds timer = 0.
Proof.
  unfold autoTrigger, truthy. intros H.
  repeat match type of H with
         | (_ && _)%bool = true => apply andb_prop in H; destruct H as [H ?]
         end.
  repeat split.
  - now apply negb_true_iff.
  - assumption.
  - now apply negb_true_iff.
  - now apply Z.eqb_eq.
Qed.

(** It reads nothing of the context. *)
Lemma autoTrigger_any_context (s : State) (c1 c2 : @Web3Context V)
      (midnightOver : bool) (timer : Timer) :
  autoTrigger s c1 midnightOver timer = autoTrigger s c2 midnightOver timer.
Proof. reflexivity. Qed.

(** The button is rendered only for a context without an error. *)
Lemma button_needs_no_error (s : State) (c : @Web3Context V)
      (midnightOver : bool) :
  buttonShown s c midnightOver = true
  \/ advancedButtonShown s c midnightOver = true ->
  error c = None.
Proof.
  unfold buttonShown, advancedButtonShown.
  destruct (error c); trivial.
  rewrite !andb_false_r. simpl. intros [H | H]; discriminate H.
Qed.

(** An error of the relayer under another name ends the run silently. *)
Lemma handleResponse_other_error (w : World V) (r : DepositRecord)
      (provider : V) (name : string) :
  name <> "BACKEND_MIX_PROOF_PRE_BROADCAST_INVALID"%string ->
  handleResponse w r provider (JError name) = ([], inr tt).
Proof.
  intros H. unfold handleResponse.
  now destruct (String.eqb_spec name "BACKEND_MIX_PROOF_PRE_BROADCAST_INVALID").
Qed.

End TriggerFacts.

(** ** The properties at sample inputs *)
Section Instances.
Import JsDate Expiry.
Local Open Scope string_scope.
Local Open Scope list_scope.

(** A proof that fails the local check, in the sample world. *)
Lemma invalid_proof_sample :
  Forall (fun e => isPostApi e = false)
         (trace (withdraw
                   (Sample.world (1, 2)%nat 7%nat (1, 2)%nat false
                                 (JResult "0xabc"))
                   Sample.config Sample.deposit Sample.connected)).
Proof.
  apply (invalid_proof_is_never_submitted
           (Sample.world (1, 2)%nat 7%nat (1, 2)%nat false (JResult "0xabc"))
           Sample.config Sample.deposit Sample.connected 100%nat
           {| signal := 108%nat; proof := 115%nat;
              publicSignals := 114%nat; verifyingKey := 113%nat |}).
  - reflexivity.
  - reflexivity.
Defined.

(** The relayer answers with the hash "0xabc", in the sample world. *)
Lemma relayer_result_sample :
  let w := Sample.world (1, 2)%nat 7%nat (1, 2)%nat true (JResult "0xabc") in
  let t := trace (withdraw w Sample.config Sample.deposit Sample.connected) in
  let ses := performAll t (initialSession 1609549200000 [Sample.deposit]) in
  txHash (ui ses) = "0xabc"
  /\ In (withTxHash Sample.deposit "0xabc") (store ses).
Proof.
  cbv zeta.
  pose proof (relayer_result_is_recorded
                (Sample.world (1, 2)%nat 7%nat (1, 2)%nat true
                              (JResult "0xabc"))
                Sample.config Sample.deposit Sample.connected
                1%nat 100%nat 0%nat
                {| signal := 108%nat; proof := 115%nat;
                   publicSignals := 114%nat; verifyingKey := 113%nat |}
                115%nat "0xabc"
                eq_refl eq_refl eq_refl eq_refl eq_refl eq_refl eq_refl)
    as H.
  cbv zeta in H. destruct H as (_ & _ & _ & H).
  destruct (H (initialSession 1609549200000 [Sample.deposit]))
    as (Hh & _ & Hs).
  split; [exact Hh | ]. apply Hs. simpl. auto.
Defined.

(** The relayer rejects the proof before broadcasting, in the sample
    world: the store is left as it was. *)
Lemma pre_broadcast_rejection_sample :
  let w := Sample.world (1, 2)%nat 7%nat (1, 2)%nat true
             (JError "BACKEND_MIX_PROOF_PRE_BROADCAST_INVALID") in
  let t := trace (withdraw w Sample.config Sample.deposit Sample.connected) in
  let ses := performAll t (initialSession 1609549200000 [Sample.deposit]) in
  errorMsg (ui ses) = "The pre-broadcast check failed"
  /\ store ses = [Sample.deposit].
Proof.
  cbv zeta. split; [reflexivity | ].
  apply (proj1 (proj2 (proj2 (store_written_only_on_success
           (fixedZone 0) Sample.config
           (Sample.world (1, 2)%nat 7%nat (1, 2)%nat true
              (JError "BACKEND_MIX_PROOF_PRE_BROADCAST_INVALID"))
           Sample.deposit Sample.connected)))).
  intros req h _ H. discriminate H.
Defined.

(** A click without a connector on a fresh page, followed by the expiry,
    a render with a connected wallet and a second click. *)
Lemma no_connector_sample :
  let w := Sample.world (1, 2)%nat 7%nat (1, 2)%nat true (JResult "0xabc") in
  let ses0 := initialSession (V:=nat) 1609516800000 [Sample.deposit] in
  let ses := run (fixedZone 0) Sample.config w
                 (step (fixedZone 0) Sample.config w ses0
                       (ClickWithdraw Sample.deposit Sample.noConnector))
                 [Resume 0; Expire;
                  Render Sample.deposit Sample.connected Sample.zeroTimer;
                  ClickWithdraw Sample.deposit Sample.connected] in
  withdrawStarted (ui ses) = true
  /\ withdrawCalls ses = 1%nat
  /\ performed ses = []
  /\ store ses = [Sample.deposit]
  /\ txHash (ui ses) = ""
  /\ errorMsg (ui ses) = ""
  /\ proofGenProgress (ui ses) = "".
Proof.
  cbv zeta.
  apply (no_connector_leaves_attempt_stuck (fixedZone 0) Sample.config
           (Sample.world (1, 2)%nat 7%nat (1, 2)%nat true (JResult "0xabc"))
           (initialSession (V:=nat) 1609516800000 [Sample.deposit])
           Sample.deposit Sample.noConnector
           [Resume 0; Expire;
            Render Sample.deposit Sample.connected Sample.zeroTimer;
            ClickWithdraw Sample.deposit Sample.connected]).
  - reflexivity.
  - reflexivity.
  - reflexivity.
Defined.

End Instances.

(** ** The stages of the steps up to the proof *)

(** The message table stays folded in what follows. *)
Arguments errorMessage : simpl never.

Section StageFacts.
Context {V : Type}.
Variable w : World V.
Variable config : Config.
Variable identityStored : DepositRecord.

Local Open Scope string_scope.
Local Open Scope list_scope.

Lemma proofSteps_stages (context : @Web3Context V) :
  proofSteps w config identityStored context
  = stagedProofSteps w config identityStored context.
Proof.
  unfold proofSteps, stagedProofSteps, signingSteps, checkSignature,
    downloadCircuit, makeWitness, proveWitness.
  split_calls; reflexivity.
Qed.

Lemma signingSteps_plain (context : @Web3Context V) :
  Forall (fun e => isFetchGet e = false /\ quiet e = true)
         (trace (signingSteps w config identityStored context)).
Proof. unfold signingSteps. walk_trace; split; reflexivity. Qed.

End StageFacts.

(** ** Failures on the way to the proof *)
Section StepFailures.
Context {V : Type}.
Variable w : World V.
Variable config : Config.
Variable identityStored : DepositRecord.

Local Open Scope string_scope.
Local Open Scope list_scope.

(** X1: when the steps up to the signed message return and the check of
    the signature says no, the [try] statement ends with the message
    "Invalid signature." right after these steps: the circuit and the keys
    are not fetched and nothing is posted. *)
Theorem invalid_signature_stops_before_downloads
        (context : @Web3Context V) (provider : V) (s : Signed) :
  outcome (signingSteps w config identityStored context) = inr s ->
  verifySignature w (s_msg s) (s_signature s) (s_pubKey s) = inr false ->
  tryBlock w config identityStored context provider
  = (trace (signingSteps w config identityStored context)
       ++ [Console (LogError (appError INVALID_SIG));
           SetErrorMsg "Invalid signature."],
     inr tt)
  /\ Forall (fun e => isFetchGet e = false /\ isPostApi e = false)
            (trace (tryBlock w config identityStored context provider)).
Proof.
  intros Hs Hv.
  assert (Heq : tryBlock w config identityStored context provider
                = (trace (signingSteps w config identityStored context)
                     ++ [Console (LogError (appError INVALID_SIG));
                         SetErrorMsg "Invalid signature."],
                   inr tt)).
  { unfold tryBlock. rewrite proofSteps_stages. unfold stagedProofSteps.
    destruct (signingSteps w config identityStored context) as [t0 o0].
    cbn in Hs. subst o0. cbn [bind]. unfold checkSignature.
    rewrite Hv. cbn. unfold errorMessage. cbn. now rewrite app_nil_r. }
  split; [exact Heq | ]. rewrite Heq. cbn [trace fst].
  apply Forall_app. split.
  - generalize (signingSteps_plain w config identityStored context).
    apply Forall_impl. intros e [Hf Hq]. split; trivial.
    now apply quiet_no_post.
  - repeat constructor.
Qed.

(** X2: whatever the witness generator throws, the [try] statement logs
    it, throws WITNESS_GEN_ERROR in its place and ends with the message
    "Could not generate witness."; the thrown value itself never reaches
    the [catch] block, and neither key is fetched. *)
Theorem witness_failure_is_reclassified
        (context : @Web3Context V) (provider : V) (s : Signed)
        (cirDef circuit : V) (e : Exn) :
  outcome (signingSteps w config identityStored context) = inr s ->
  verifySignature w (s_msg s) (s_signature s) (s_pubKey s) = inr true ->
  fetchJson w (circuitPath config) = inr cirDef ->
  genCircuit w cirDef = inr circuit ->
  genWitness w circuit (s_pubKey s) (s_signature s) (s_signalHash s)
             (s_externalNullifier s) (identityNullifier identityStored)
             (s_pathElements s) (s_pathIndex s) = inl e ->
  tryBlock w config identityStored context provider
  = (trace (signingSteps w config identityStored context)
       ++ [SetProofGenProgress "Downloading circuit...";
           Network (FetchGet (circuitPath config));
           Console (LogError e);
           Console (LogError (appError WITNESS_GEN_ERROR));
           SetErrorMsg "Could not generate witness."],
     inr tt).
Proof.
  intros Hs Hv Hf Hc Hw.
  unfold tryBlock. rewrite proofSteps_stages. unfold stagedProofSteps.
  destruct (signingSteps w config identityStored context) as [t0 o0].
  cbn in Hs. subst o0. cbn [bind].
  unfold checkSignature, downloadCircuit, makeWitness.
  rewrite Hv. cbn. rewrite Hf. cbn. rewrite Hc. cbn. rewrite Hw.
  cbn. unfold errorMessage. cbn. now rewrite <- app_assoc.
Qed.

(** X3: when the witness is generated and its check says no, the [try]
    statement ends with the message "Invalid witness." before either key
    is fetched. *)
Theorem invalid_witness_stops_before_keys
        (context : @Web3Context V) (provider : V) (s : Signed)
        (cirDef circuit wit : V) :
  outcome (signingSteps w config identityStored context) = inr s ->
  verifySignature w (s_msg s) (s_signature s) (s_pubKey s) = inr true ->
  fetchJson w (circuitPath config) = inr cirDef ->
  genCircuit w cirDef = inr circuit ->
  genWitness w circuit (s_pubKey s) (s_signature s) (s_signalHash s)
             (s_externalNullifier s) (identityNullifier identityStored)
             (s_pathElements s) (s_pathIndex s) = inr wit ->
  checkWitness w circuit wit = inr false ->
  tryBlock w config identityStored context provider
  = (trace (signingSteps w config identityStored context)
       ++ [SetProofGenProgress "Downloading circuit...";
           Network (FetchGet (circuitPath config));
           Console (LogError (appError INVALID_WITNESS));
           SetErrorMsg "Invalid witness."],
     inr tt).
Proof.
  intros Hs Hv Hf Hc Hw Hk.
  unfold tryBlock. rewrite proofSteps_stages. unfold stagedProofSteps.
  destruct (signingSteps w config identityStored context) as [t0 o0].
  cbn in Hs. subst o0. cbn [bind].
  unfold checkSignature, downloadCircuit, makeWitness.
  rewrite Hv. cbn. rewrite Hf. cbn. rewrite Hc. cbn. rewrite Hw. cbn.
  rewrite Hk. cbn. unfold errorMessage. cbn. now rewrite <- app_assoc.
Qed.

(** X4: when one of the steps up to the proof throws, the [try] statement
    ends in the [catch] block with that exception: it is logged, the
    message of the table is set if the table has one for it and none
    otherwise, and the run posts nothing, sets no hash and writes
    nothing. *)
Theorem failed_step_ends_in_catch
        (context : @Web3Context V) (provider : V) (e : Exn) :
  outcome (proofSteps w config identityStored context) = inl e ->
  tryBlock w config identityStored context provider
  = (trace (proofSteps w config identityStored context)
       ++ Console (LogError e)
          :: match errorMessage config e with
             | Some msg => [SetErrorMsg msg]
             | None => []
             end,
     inr tt)
  /\ Forall (fun x => calm x = true)
            (trace (tryBlock w config identityStored context provider)).
Proof.
  intros He.
  assert (Heq : tryBlock w config identityStored context provider
                = (trace (proofSteps w config identityStored context)
                     ++ Console (LogError e)
                        :: match errorMessage config e with
                           | Some msg => [SetErrorMsg msg]
                           | None => []
                           end,
                   inr tt)).
  { unfold tryBlock, catchBlock.
    destruct (proofSteps w config identityStored context) as [t0 o0].
    cbn in He. subst o0. cbn.
    now destruct (errorMessage config e). }
  split; [exact Heq | ]. rewrite Heq. cbn [trace fst].
  apply Forall_app. split.
  - apply Forall_quiet_calm, proofSteps_quiet.
  - destruct (errorMessage config e); repeat constructor.
Qed.

End StepFailures.

(** ** The shape of a run *)
Section RunShape.
Context {V : Type}.
Variable w : World V.
Variable config : Config.
Variable identityStored : DepositRecord.

Local Open Scope string_scope.
Local Open Scope list_scope.

(** A run is calm throughout, or it is calm but for the check of the
    proof and the submission, reached with the proof at hand. *)
Lemma withdraw_shape (context : @Web3Context V) :
  Forall (fun e => calm e = true)
         (trace (withdraw w config identityStored context))
  \/ exists pre post provider p,
      trace (withdraw w config identityStored context)
      = pre ++ trace (verifyAndSubmit w config identityStored provider p)
            ++ post
      /\ Forall (fun e => calm e = true) pre
      /\ Forall (fun e => calm e = true) post
      /\ outcome (proofSteps w config identityStored context) = inr p.
Proof.
  destruct (trace_withdraw w config identityStored context)
    as (pre & rest & -> & Hpre & Hrest).
  apply Forall_quiet_calm in Hpre.
  destruct Hrest as [-> | [provider ->]].
  { left. now rewrite app_nil_r. }
  rewrite trace_tryBlock.
  pose proof (Forall_quiet_calm _
                (proofSteps_quiet w config identityStored context)) as Hsteps.
  pose proof (caught_calm w config identityStored context provider) as Hcaught.
  destruct (submitted_cases w config identityStored context provider)
    as [-> | (p & Hp & ->)].
  - left. repeat (apply Forall_app; split); trivial.
  - right.
    exists (pre ++ trace (proofSteps w config identityStored context)),
      (caught w config identityStored context provider), provider, p.
    repeat split; trivial.
    + now rewrite <- app_assoc.
    + apply Forall_app. now split.
Qed.

(** An effect that is not calm comes from the check of the proof and the
    submission. *)
Lemma noncalm_in_shape (pre post t : list (@Effect V)) (x : @Effect V) :
  calm x = false ->
  Forall (fun e => calm e = true) pre ->
  Forall (fun e => calm e = true) post ->
  In x (pre ++ t ++ post) <-> In x t.
Proof.
  intros Hx Hpre Hpost. rewrite !in_app_iff. split; [ | tauto].
  rewrite Forall_forall in Hpre, Hpost.
  intros [H | [H | H]]; trivial.
  - apply Hpre in H. congruence.
  - apply Hpost in H. congruence.
Qed.

Lemma verifyAndSubmit_post (provider : V) (p : Proved) (req : Request) :
  In (Network (PostApi req))
     (trace (verifyAndSubmit w config identityStored provider p)) ->
  verifyProof w (verifyingKey p) (proof p) (publicSignals p) = inr true
  /\ exists prm,
      genMixParams w (signal p) (proof p) (recipientAddress identityStored)
                   (feeAmtWei config) (publicSignals p) = inr prm
      /\ req = mixRequest w prm.
Proof.
  unfold verifyAndSubmit, handleResponse. split_calls;
    intros H; simpl in H; intuition (try discriminate);
    match goal with
    | H : Network (PostApi _) = Network (PostApi _) |- _ =>
        injection H as <-
    end;
    match goal with
    | H : negb _ = false |- _ => apply negb_false_iff in H; subst
    end;
    first [reflexivity | eexists; split; reflexivity].
Qed.

Lemma verifyAndSubmit_hash_store (provider : V) (p : Proved) (h : string) :
  In (SetTxHash h) (trace (verifyAndSubmit w config identityStored provider p))
  <-> In (StoreTxHash identityStored h)
         (trace (verifyAndSubmit w config identityStored provider p)).
Proof.
  unfold verifyAndSubmit, handleResponse. split_calls;
    (split; intros H; simpl in H; intuition (try discriminate));
    match goal with
    | H : SetTxHash _ = SetTxHash _ |- _ => injection H as <-
    | H : StoreTxHash _ _ = StoreTxHash _ _ |- _ => injection H as <-
    end; simpl; tauto.
Qed.

Lemma verifyAndSubmit_postCount (provider : V) (p : Proved) :
  (postCount (trace (verifyAndSubmit w config identityStored provider p))
   <= 1)%nat.
Proof.
  unfold verifyAndSubmit, handleResponse, postCount. split_calls; auto.
Qed.

Lemma postCount_app (t1 t2 : list (@Effect V)) :
  postCount (t1 ++ t2) = (postCount t1 + postCount t2)%nat.
Proof. unfold postCount. now rewrite filter_app, length_app. Qed.

Lemma postCount_calm (t : list (@Effect V)) :
  Forall (fun e => calm e = true) t -> postCount t = 0%nat.
Proof.
  unfold postCount. induction 1 as [| e t He _ IH]; simpl; trivial.
  now rewrite (calm_no_post e He).
Qed.

Lemma withdraw_postCount (context : @Web3Context V) :
  (postCount (trace (withdraw w config identityStored context)) <= 1)%nat.
Proof.
  destruct (withdraw_shape context)
    as [Hc | (pre & post & provider & p & -> & Hpre & Hpost & _)].
  - rewrite (postCount_calm _ Hc). lia.
  - rewrite !postCount_app, (postCount_calm _ Hpre), (postCount_calm _ Hpost).
    pose proof (verifyAndSubmit_postCount provider p). lia.
Qed.

(** The hash a run sets is the hash of a result of the relayer. *)
Lemma withdraw_txHash_confirmed (context : @Web3Context V) (h : string) :
  In (SetTxHash h) (trace (withdraw w config identityStored context)) ->
  exists req, postApi w req = inr (JResult h).
Proof.
  intros Hin.
  destruct (withdraw_shape context)
    as [Hc | (pre & post & provider & p & Heq & Hpre & Hpost & _)].
  - exfalso. revert Hin. now apply calm_not_txHash.
  - rewrite Heq in Hin.
    apply (proj1 (noncalm_in_shape pre post _ (SetTxHash h) eq_refl
                    Hpre Hpost)) in Hin.
    destruct (verifyAndSubmit_txHash w config identityStored provider p h Hin)
      as (req & _ & Hpost').
    now exists req.
Qed.

(** The message a run sets is one of the table. *)
Lemma withdraw_errorMsg_table (context : @Web3Context V) (msg : string) :
  In (SetErrorMsg msg) (trace (withdraw w config identityStored context)) ->
  exists e, errorMessage config e = Some msg.
Proof.
  unfold withdraw, tryBlock, proofSteps, verifyAndSubmit, handleResponse,
    catchBlock.
  split_calls; intros Hin; cbn in Hin;
    repeat (destruct Hin as [Hin | Hin]; [try discriminate Hin | ]);
    try contradiction; injection Hin as <-; eexists; eassumption.
Qed.

(** X5: a run posts to the relayer only after the steps up to the proof
    have returned and the proof has passed the local check, and what it
    posts is the request of method "mixer_mix" around the parameters made
    from that proof; it posts at most once. *)
Theorem request_follows_verified_proof
        (context : @Web3Context V) (req : Request) :
  In (Network (PostApi req))
     (trace (withdraw w config identityStored context)) ->
  (exists p prm,
      outcome (proofSteps w config identityStored context) = inr p
      /\ verifyProof w (verifyingKey p) (proof p) (publicSignals p) = inr true
      /\ genMixParams w (signal p) (proof p)
                      (recipientAddress identityStored) (feeAmtWei config)
                      (publicSignals p) = inr prm
      /\ req = mixRequest w prm)
  /\ method req = "mixer_mix"
  /\ jsonrpc req = "2.0"
  /\ (postCount (trace (withdraw w config identityStored context)) <= 1)%nat.
Proof.
  intros Hin.
  assert (H : exists p prm,
             outcome (proofSteps w config identityStored context) = inr p
             /\ verifyProof w (verifyingKey p) (proof p) (publicSignals p)
                = inr true
             /\ genMixParams w (signal p) (proof p)
                             (recipientAddress identityStored)
                             (feeAmtWei config) (publicSignals p) = inr prm
             /\ req = mixRequest w prm).
  { destruct (withdraw_shape context)
      as [Hc | (pre & post & provider & p & Heq & Hpre & Hpost & Hp)].
    - exfalso. revert Hin. now apply calm_not_post.
    - rewrite Heq in Hin.
      apply (proj1 (noncalm_in_shape pre post _ (Network (PostApi req))
                      eq_refl Hpre Hpost)) in Hin.
      destruct (verifyAndSubmit_post provider p req Hin)
        as (Hv & prm & Hm & Hreq).
      now exists p, prm. }
  split; [exact H | ].
  destruct H as (p & prm & _ & _ & _ & ->).
  repeat split. apply withdraw_postCount.
Qed.

(** X6: a run sets the transaction hash of the page to [h] exactly when
    it writes [h] to the store for the record at hand. *)
Theorem hash_on_page_matches_store (context : @Web3Context V) (h : string) :
  In (SetTxHash h) (trace (withdraw w config identityStored context))
  <-> In (StoreTxHash identityStored h)
         (trace (withdraw w config identityStored context)).
Proof.
  destruct (withdraw_shape context)
    as [Hc | (pre & post & provider & p & -> & Hpre & Hpost & _)].
  - split; intros H; exfalso; revert H;
      [now apply calm_not_txHash | now apply calm_not_store].
  - rewrite (noncalm_in_shape pre post _ (SetTxHash h) eq_refl Hpre Hpost).
    rewrite (noncalm_in_shape pre post _ (StoreTxHash identityStored h)
               eq_refl Hpre Hpost).
    apply verifyAndSubmit_hash_store.
Qed.

End RunShape.

(** ** Messages and progress of a run *)
Section RunMessages.
Context {V : Type}.
Variable w : World V.
Variable config : Config.
Variable identityStored : DepositRecord.

Local Open Scope string_scope.
Local Open Scope list_scope.

(** X8: a run sets the error message at most once, and when it does this
    is the last thing it does: no request, no hash, no write to the store
    and no progress line follows an error message. *)
Theorem error_message_ends_the_run (context : @Web3Context V) :
  (errorMsgCount (trace (withdraw w config identityStored context)) <= 1)%nat
  /\ forall msg,
      In (SetErrorMsg msg) (trace (withdraw w config identityStored context)) ->
      trace (withdraw w config identityStored context)
      = removelast (trace (withdraw w config identityStored context))
          ++ [SetErrorMsg msg].
Proof.
  unfold withdraw, tryBlock, proofSteps, verifyAndSubmit, handleResponse,
    catchBlock, errorMsgCount.
  split_calls; (split; [cbn; lia | ]);
    intros msg Hin; cbn in Hin;
    repeat (destruct Hin as [Hin | Hin]; [try discriminate Hin | ]);
    try contradiction; injection Hin as <-; reflexivity.
Qed.


(** X10: every member of [ErrorCodes] that the component names has a
    message, and two of them never share one. *)
Theorem error_messages_are_distinct (c1 c2 : ErrorCodes) :
  (exists msg, errorMessage config (appError c1) = Some msg)
  /\ (errorMessage config (appError c1) = errorMessage config (appError c2)
      -> c1 = c2).
Proof.
  split.
  - destruct c1; eexists; reflexivity.
  - destruct c1, c2; cbv; intros H; try reflexivity; discriminate H.
Qed.

End RunMessages.

(** ** Hooks over a session *)
Section SessionHooks.
Context {V : Type}.
Variable tz : JsDate.TimeZone.
Variable config : Config.
Variable w : World V.
Implicit Types (ses : @Session V) (ev : @Event V).

Local Open Scope string_scope.
Local Open Scope list_scope.

(** What one event leaves of the hooks that only the component sets. *)
Lemma hooks_step ses ev :
  firstLoadTime (ui (step tz config w ses ev)) = firstLoadTime (ui ses)
  /\ (withdrawStarted (ui ses) = true ->
      withdrawStarted (ui (step tz config w ses ev)) = true)
  /\ (countdownDone (ui ses) = true ->
      countdownDone (ui (step tz config w ses ev)) = true)
  /\ (withdrawBtnClicked (ui ses) = true ->
      withdrawBtnClicked (ui (step tz config w ses ev)) = true)
  /\ (withdrawCalls ses <= withdrawCalls (step tz config w ses ev))%nat.
Proof.
  destruct ev as [| r c timer | r c | | k]; cbn [step].
  - unfold onExpire, withUi.
    destruct (negb (countdownDone (ui ses))); cbn; repeat split; auto.
  - unfold render, callWithdraw, withUi.
    destruct (autoTrigger _ _ _ _); cbn; repeat split; intros; auto; try lia.
  - unfold onClick, callWithdraw, withUi.
    destruct (withdrawStarted (ui ses)) eqn:Hs, (showAdvanced (ui ses)); cbn;
      rewrite ?Hs; repeat split; intros; auto; try discriminate; try lia.
  - unfold withUi. cbn. repeat split; auto.
  - unfold resume.
    destruct (nextEffect k (inFlight ses)) as [[e runs'] |];
      [ | repeat split; auto].
    destruct e; cbn; repeat split; auto.
Qed.

(** X11: in a session the hooks that only the component sets are never
    reset: the time of the first load stays what it was, and
    [withdrawStarted], [countdownDone] and [withdrawBtnClicked], once
    true, stay true; the number of calls of [withdraw] never goes
    down. *)
Theorem hooks_are_never_reset ses (evs : list (@Event V)) :
  firstLoadTime (ui (run tz config w ses evs)) = firstLoadTime (ui ses)
  /\ (withdrawStarted (ui ses) = true ->
      withdrawStarted (ui (run tz config w ses evs)) = true)
  /\ (countdownDone (ui ses) = true ->
      countdownDone (ui (run tz config w ses evs)) = true)
  /\ (withdrawBtnClicked (ui ses) = true ->
      withdrawBtnClicked (ui (run tz config w ses evs)) = true)
  /\ (withdrawCalls ses <= withdrawCalls (run tz config w ses evs))%nat.
Proof.
  revert ses. induction evs as [| ev evs IH]; intros ses.
  - cbn. auto.
  - rewrite run_cons.
    destruct (hooks_step ses ev) as (H1 & H2 & H3 & H4 & H5).
    destruct (IH (step tz config w ses ev)) as (I1 & I2 & I3 & I4 & I5).
    repeat split; auto; try congruence. lia.
Qed.

Lemma started_run ses (evs : list (@Event V)) :
  withdrawStarted (ui ses) = true ->
  withdrawStarted (ui (run tz config w ses evs)) = true.
Proof.
  revert ses. induction evs as [| ev evs IH]; intros ses H; trivial.
  rewrite run_cons. apply IH. now apply hooks_step.
Qed.

(** X12: after a click on the button, whatever happens next in the
    session, neither button is rendered again and the block with the time
    left is gone, for every context and every record. *)
Theorem nothing_to_click_after_a_click
        ses (r : DepositRecord) (c : @Web3Context V) (evs : list (@Event V))
        (context : @Web3Context V) (midnightOver : bool) :
  let ses' := run tz config w (step tz config w ses (ClickWithdraw r c)) evs in
  buttonShown (ui ses') context midnightOver = false
  /\ advancedButtonShown (ui ses') context midnightOver = false
  /\ countdownShown (ui ses') midnightOver = false.
Proof.
  cbv zeta.
  assert (Hs : withdrawStarted
                 (ui (step tz config w ses (ClickWithdraw r c))) = true).
  { cbn [step]. unfold onClick, callWithdraw, withUi.
    destruct (withdrawStarted (ui ses)) eqn:Hs, (showAdvanced (ui ses));
      cbn; trivial. }
  apply (started_run _ evs) in Hs.
  unfold buttonShown, advancedButtonShown, countdownShown. rewrite Hs.
  cbn [negb]. rewrite ?andb_false_r.
  repeat split; trivial.
Qed.

End SessionHooks.

(** ** Sessions and triggers *)
Section SessionTriggers.
Context {V : Type}.
Variable tz : JsDate.TimeZone.
Variable config : Config.
Variable w : World V.
Implicit Types (ses : @Session V) (ev : @Event V).

Local Open Scope string_scope.
Local Open Scope list_scope.

(** An event that is neither a click on the button nor a render that
    fires the automatic trigger calls nothing. *)
Lemma withdrawCalls_step ses ev :
  withdrawCalls (step tz config w ses ev) <> withdrawCalls ses ->
  (exists r c, ev = ClickWithdraw r c)
  \/ exists r c timer,
      ev = Render r c timer
      /\ autoTrigger (ui ses) c
           (Expiry.midnightOver tz (timestamp r) (firstLoadTime (ui ses)))
           timer = true.
Proof.
  destruct ev as [| r c timer | r c | | k]; cbn [step].
  - unfold onExpire, withUi.
    destruct (negb (countdownDone (ui ses))); cbn; congruence.
  - unfold render. destruct (autoTrigger _ _ _ _) eqn:Ha; [ | congruence].
    intros _. right. now exists r, c, timer.
  - intros _. left. now exists r, c.
  - unfold withUi. cbn. congruence.
  - unfold resume.
    destruct (nextEffect k (inFlight ses)) as [[e runs'] |]; [ | congruence].
    destruct e; cbn; congruence.
Qed.

Lemma countdownDone_step ses ev :
  countdownDone (ui (step tz config w ses ev)) = true ->
  countdownDone (ui ses) = true \/ ev = Expire.
Proof.
  destruct ev as [| r c timer | r c | | k]; cbn [step]; auto.
  - unfold render, callWithdraw, withUi.
    destruct (autoTrigger _ _ _ _); cbn; auto.
  - unfold onClick, callWithdraw, withUi.
    destruct (withdrawStarted (ui ses)), (showAdvanced (ui ses)); cbn; auto.
  - unfold resume.
    destruct (nextEffect k (inFlight ses)) as [[e runs'] |]; auto.
    destruct e; cbn; auto.
Qed.

Lemma withdraw_needs_trigger ses (evs : list (@Event V)) :
  withdrawCalls (run tz config w ses evs) <> withdrawCalls ses ->
  (exists r c, In (ClickWithdraw r c) evs)
  \/ ((countdownDone (ui ses) = true \/ In Expire evs)
      /\ exists r c timer,
          In (Render r c timer) evs
          /\ Expiry.midnightOver tz (timestamp r) (firstLoadTime (ui ses))
             = false
          /\ days timer + hours timer + minutes timer + seconds timer = 0).
Proof.
  revert ses. induction evs as [| ev evs IH]; intros ses H.
  - now destruct H.
  - rewrite run_cons in H.
    destruct (Nat.eq_dec (withdrawCalls (step tz config w ses ev))
                         (withdrawCalls ses)) as [Hsame | Hdiff].
    + rewrite <- Hsame in H. apply IH in H.
      destruct (hooks_step tz config w ses ev) as (Hflt & _).
      rewrite Hflt in H.
      destruct H as [(r & c & Hin) | (Hdone & r & c & timer & Hin & Hr)].
      * left. exists r, c. now right.
      * right. split.
        -- destruct Hdone as [Hdone | Hdone]; [ | right; now right].
           apply countdownDone_step in Hdone.
           destruct Hdone as [Hdone | ->]; [now left | right; now left].
        -- exists r, c, timer. split; [now right | exact Hr].
    + apply withdrawCalls_step in Hdiff.
      destruct Hdiff as [(r & c & ->) | (r & c & timer & -> & Ha)].
      * left. exists r, c. now left.
      * apply autoTrigger_true in Ha.
        destruct Ha as (_ & Hdone & Hmo & Hzero).
        right. split; [now left | ].
        exists r, c, timer. split; [now left | now split].
Qed.

(** X13: in a session [withdraw] is called only after a click on the
    button, or after the timer has expired and the component has been
    rendered, with a timer at zero, for a record whose midnight expiry was
    not yet over when the page was first loaded. *)
Theorem withdraw_needs_click_or_expiry
        (now : Z) (store0 : Store) (evs : list (@Event V)) :
  withdrawCalls (run tz config w (initialSession now store0) evs) <> 0%nat ->
  (exists r c, In (ClickWithdraw r c) evs)
  \/ (In Expire evs
      /\ exists r c timer,
          In (Render r c timer) evs
          /\ Expiry.midnightOver tz (timestamp r) now = false
          /\ days timer + hours timer + minutes timer + seconds timer = 0).
Proof.
  intros H.
  destruct (withdraw_needs_trigger (initialSession now store0) evs H)
    as [Hc | ([Hd | He] & Hr)]; auto; discriminate Hd.
Qed.

Lemma idle_step (now : Z) ses ev :
  idle now ses ->
  isClick ev = false ->
  (forall r c timer, ev = Render r c timer ->
                     Expiry.midnightOver tz (timestamp r) now = true) ->
  idle now (step tz config w ses ev).
Proof.
  intros (Hflt & Hs & Hc & Hf & Ht & Hb) Hclick Hrender.
  destruct ev as [| r c timer | r c | | k]; cbn [step].
  - unfold onExpire, withUi, idle.
    destruct (negb (countdownDone (ui ses))); cbn; auto 10.
  - unfold render. rewrite Hflt, (Hrender r c timer eq_refl).
    unfold autoTrigger. cbn [negb]. rewrite andb_false_r. cbn [andb].
    unfold idle. auto 10.
  - discriminate Hclick.
  - unfold withUi, idle. cbn. auto 10.
  - unfold resume. rewrite Hf.
    destruct k; cbn; unfold idle; auto 10.
Qed.

(** X14: on a page first loaded after the midnight expiry of its record
    nothing starts by itself: as long as the button is not clicked,
    [withdraw] is not called, the block with the time left is not
    rendered, and the button is rendered for every context without an
    error. *)
Theorem late_page_waits_for_click
        (now : Z) (store0 : Store) (evs : list (@Event V))
        (context : @Web3Context V) :
  (forall r c timer, In (Render r c timer) evs ->
                     Expiry.midnightOver tz (timestamp r) now = true) ->
  (forall r c, ~ In (ClickWithdraw r c) evs) ->
  error context = None ->
  let ses := run tz config w (initialSession now store0) evs in
  withdrawCalls ses = 0%nat
  /\ countdownShown (ui ses) true = false
  /\ buttonShown (ui ses) context true = true.
Proof.
  intros Hrender Hclick Herr. cbv zeta.
  assert (H : idle now (run tz config w (initialSession now store0) evs)).
  { assert (Hinit : idle now (initialSession (V:=V) now store0))
      by (repeat split).
    revert Hinit Hrender Hclick.
    generalize (initialSession (V:=V) now store0).
    induction evs as [| ev evs IH]; intros ses Hidle Hrender Hclick; trivial.
    rewrite run_cons. apply IH.
    - apply idle_step; trivial.
      + destruct ev; trivial. exfalso. eapply Hclick. now left.
      + intros r c timer ->. eapply Hrender. now left.
    - intros r c timer Hin. eapply Hrender. right. eassumption.
    - intros r c Hin. eapply Hclick. right. eassumption. }
  destruct H as (_ & Hs & Hc & _ & Ht & _).
  unfold countdownShown, buttonShown. rewrite Hs, Ht, Herr. auto.
Qed.

(** X15: over a whole session at most one request is posted to the
    relayer. *)
Theorem one_request_per_session
        (now : Z) (store0 : Store) (evs : list (@Event V)) :
  (postCount (performed (run tz config w (initialSession now store0) evs))
   <= 1)%nat.
Proof.
  destruct (tracked_run tz config w now store0 evs)
    as [_ [(_ & _ & Hp) | (_ & r & c & rest & _ & Hp)]].
  - rewrite Hp. cbn. lia.
  - pose proof (withdraw_postCount w config r c) as Hle.
    rewrite <- Hp, postCount_app in Hle. lia.
Qed.

End SessionTriggers.

(** ** What the page shows *)
Section PageReports.
Context {V : Type}.
Variable tz : JsDate.TimeZone.
Variable config : Config.
Variable w : World V.
Implicit Types (ses : @Session V) (ev : @Event V).

Local Open Scope string_scope.
Local Open Scope list_scope.

Lemma reported_step ses ev :
  reported ses -> reported (step tz config w ses ev).
Proof.
  unfold reported. intros [Ht He].
  destruct ev as [| r c timer | r c | | k]; cbn [step].
  - unfold onExpire, withUi.
    destruct (negb (countdownDone (ui ses))); cbn; auto.
  - unfold render, callWithdraw, withUi.
    destruct (autoTrigger _ _ _ _); cbn; auto.
  - unfold onClick, callWithdraw, withUi.
    destruct (withdrawStarted (ui ses)), (showAdvanced (ui ses)); cbn; auto.
  - unfold withUi. cbn. auto.
  - unfold resume.
    destruct (nextEffect k (inFlight ses)) as [[e runs'] |]; auto.
    destruct e; cbn; rewrite !in_app_iff; cbn; intuition.
Qed.

Lemma reported_run ses (evs : list (@Event V)) :
  reported ses -> reported (run tz config w ses evs).
Proof.
  revert ses. induction evs as [| ev evs IH]; intros ses H; trivial.
  rewrite run_cons. apply IH, reported_step, H.
Qed.

Lemma nonempty_length (s : string) :
  (0 <? String.length s)%nat = true -> s <> "".
Proof. now destruct s. Qed.

(** X16: what the page reports comes from the run: a success message is
    rendered only with a hash that the run has set and that the relayer
    returned as a result, and an error message only with a message of the
    table that the run has set. *)
Theorem page_reports_come_from_the_run
        (now : Z) (store0 : Store) (evs : list (@Event V)) :
  let ses := run tz config w (initialSession now store0) evs in
  (successShown (ui ses) = true ->
   In (SetTxHash (txHash (ui ses))) (performed ses)
   /\ exists req, postApi w req = inr (JResult (txHash (ui ses))))
  /\ (errorShown (ui ses) = true ->
      In (SetErrorMsg (errorMsg (ui ses))) (performed ses)
      /\ exists e, errorMessage config e = Some (errorMsg (ui ses))).
Proof.
  cbv zeta.
  assert (Hinit : reported (initialSession (V:=V) now store0))
    by (split; now left).
  destruct (reported_run _ evs Hinit) as [Ht He].
  destruct (tracked_run tz config w now store0 evs) as [_ Htr].
  set (ses := run tz config w (initialSession now store0) evs) in *.
  assert (Hrun : forall x, In x (performed ses) ->
                           exists r c, In x (trace (withdraw w config r c))).
  { intros x Hx.
    destruct Htr as [(_ & _ & Hp) | (_ & r & c & rest & _ & Hp)].
    - rewrite Hp in Hx. destruct Hx.
    - exists r, c. rewrite <- Hp. apply in_or_app. now left. }
  split; intros Hshown; apply nonempty_length in Hshown.
  - destruct Ht as [Ht | Ht]; [contradiction | ]. split; trivial.
    destruct (Hrun _ Ht) as (r & c & Hin).
    eapply withdraw_txHash_confirmed, Hin.
  - destruct He as [He | He]; [contradiction | ]. split; trivial.
    destruct (Hrun _ He) as (r & c & Hin).
    eapply withdraw_errorMsg_table, Hin.
Qed.

Lemma announced_step ses ev :
  announced ses -> announced (step tz config w ses ev).
Proof.
  unfold announced. intros H.
  destruct ev as [| r c timer | r c | | k]; cbn [step].
  - unfold onExpire, withUi.
    destruct (negb (countdownDone (ui ses))); cbn; auto.
  - unfold render. destruct (autoTrigger _ _ _ _) eqn:Ha; trivial.
    apply autoTrigger_true in Ha. destruct Ha as (_ & Hd & _).
    unfold callWithdraw, withUi. cbn. auto.
  - unfold onClick, callWithdraw, withUi.
    destruct (withdrawStarted (ui ses)), (showAdvanced (ui ses)); cbn; auto.
  - unfold withUi. cbn. exact H.
  - unfold resume.
    destruct (nextEffect k (inFlight ses)) as [[e runs'] |]; trivial.
    destruct e; cbn; exact H.
Qed.

Lemma announced_run ses (evs : list (@Event V)) :
  announced ses -> announced (run tz config w ses evs).
Proof.
  revert ses. induction evs as [| ev evs IH]; intros ses H; trivial.
  rewrite run_cons. apply IH, announced_step, H.
Qed.

(** X17: once a run has been started the page says so: the headline no
    longer names the expiry time, the block with the time left is gone,
    and the progress line is rendered whenever it is not empty. *)
Theorem started_run_is_announced
        (now : Z) (store0 : Store) (evs : list (@Event V))
        (midnightOver : bool) :
  let ses := run tz config w (initialSession now store0) evs in
  withdrawStarted (ui ses) = true ->
  expiryTimeShown (ui ses) midnightOver = false
  /\ countdownShown (ui ses) midnightOver = false
  /\ progressShown (ui ses) midnightOver
     = (0 <? String.length (proofGenProgress (ui ses)))%nat.
Proof.
  cbv zeta. intros Hs.
  assert (Hinit : announced (initialSession (V:=V) now store0))
    by (intros H; discriminate H).
  pose proof (announced_run _ evs Hinit) as H.
  specialize (H Hs).
  unfold expiryTimeShown, countdownShown, progressShown. rewrite Hs.
  cbn [negb]. rewrite ?andb_false_r.
  destruct H as [-> | ->]; cbn; rewrite ?orb_true_r; auto.
Qed.

End PageReports.

(** ** The midnight expiry and the offsets of the zone *)
Section ExpiryOffsets.
Import JsDate Expiry ExpiryFacts.

(** X18: the expiry is the next UTC midnight moved by the change of the
    zone's offset over the local day that follows the UTC midnight of the
    deposit, so it is the next UTC midnight exactly when the offset does
    not change over that day; and it depends on the UTC day of the deposit
    only. *)
Theorem midnight_expiry_and_offsets (tz : TimeZone) (timestamp : Z) :
  let m := Day timestamp * msPerDay in
  midnightExpiry tz timestamp
  = nextUtcMidnight timestamp
    + (tz m true - tz (m + tz m true + msPerDay) false)
  /\ (midnightExpiry tz timestamp = nextUtcMidnight timestamp
      <-> tz (m + tz m true + msPerDay) false = tz m true)
  /\ (forall timestamp',
         Day timestamp' = Day timestamp ->
         midnightExpiry tz timestamp' = midnightExpiry tz timestamp).
Proof.
  cbv zeta.
  assert (H : midnightExpiry tz timestamp
              = nextUtcMidnight timestamp
                + (tz (Day timestamp * msPerDay) true
                   - tz (Day timestamp * msPerDay
                         + tz (Day timestamp * msPerDay) true + msPerDay)
                        false)).
  { rewrite midnightExpiry_local. unfold UTC, LocalTime, nextUtcMidnight. lia. }
  split; [exact H | split].
  - rewrite H. lia.
  - intros timestamp' Hday. rewrite !midnightExpiry_local. now rewrite Hday.
Qed.

(** X19: when the offset of the zone does not change over that day, the
    expiry lies after the deposit and at most 24 hours after it, so a page
    loaded no later than the deposit is never past the expiry. *)
Theorem midnight_expiry_within_a_day
        (tz : TimeZone) (timestamp firstLoadTime : Z) :
  tz (Day timestamp * msPerDay + tz (Day timestamp * msPerDay) true + msPerDay)
     false
  = tz (Day timestamp * msPerDay) true ->
  timestamp < midnightExpiry tz timestamp <= timestamp + msPerDay
  /\ (firstLoadTime <= timestamp ->
      midnightOver tz timestamp firstLoadTime = false).
Proof.
  intros H.
  assert (He : midnightExpiry tz timestamp = nextUtcMidnight timestamp).
  { rewrite midnightExpiry_local. unfold UTC, LocalTime, nextUtcMidnight.
    rewrite H. lia. }
  assert (Hb : timestamp < midnightExpiry tz timestamp <= timestamp + msPerDay).
  { rewrite He. unfold nextUtcMidnight, Day, msPerDay.
    Z.div_mod_to_equations. lia. }
  split; [exact Hb | ].
  intros Hle. unfold midnightOver. apply Z.ltb_ge. lia.
Qed.

End ExpiryOffsets.

(** ** The fixed delay of development builds *)
Section FixedDelay.
Import JsDate Expiry ExpiryFacts.
Context {V : Type}.
Variable tz : TimeZone.
Variable config : Config.
Variable w : World V.
Implicit Types (ses : @Session V) (ev : @Event V).



End FixedDelay.

(** ** A rejection before the [try] statement *)
Section UncaughtRejection.
Context {V : Type}.
Variable tz : JsDate.TimeZone.
Variable config : Config.
Variable w : World V.
Implicit Types (ses : @Session V) (ev : @Event V).

Local Open Scope string_scope.
Local Open Scope list_scope.

Lemma nextEffect_single (k : nat) (t : list (@Effect V)) :
  nextEffect k [t]
  = match k, t with
    | O, e :: rest => Some (e, [rest])
    | _, _ => None
    end.
Proof. destruct k as [| [| k']], t; reflexivity. Qed.

(** A run in flight that sets no hook and does not write the store
    leaves the page and the store as they are, whatever else happens. *)
Lemma unheard_step (calls : nat) ses0 ses ev :
  (withdrawStarted (ui ses) = true
   /\ (exists rest,
          inFlight ses = [rest]
          /\ Forall (fun x => isHookSetter x = false
                              /\ isStoreTxHash x = false) rest)
   /\ withdrawCalls ses = calls
   /\ store ses = store ses0
   /\ txHash (ui ses) = txHash (ui ses0)
   /\ errorMsg (ui ses) = errorMsg (ui ses0)
   /\ proofGenProgress (ui ses) = proofGenProgress (ui ses0)) ->
  let ses' := step tz config w ses ev in
  withdrawStarted (ui ses') = true
  /\ (exists rest,
         inFlight ses' = [rest]
         /\ Forall (fun x => isHookSetter x = false
                             /\ isStoreTxHash x = false) rest)
  /\ withdrawCalls ses' = calls
  /\ store ses' = store ses0
  /\ txHash (ui ses') = txHash (ui ses0)
  /\ errorMsg (ui ses') = errorMsg (ui ses0)
  /\ proofGenProgress (ui ses') = proofGenProgress (ui ses0).
Proof.
  intros H. cbv zeta. destruct ev as [| r c timer | r c | | k]; cbn [step].
  - unfold onExpire.
    destruct (negb (countdownDone (ui ses))); exact H.
  - rewrite render_started; [exact H | apply H].
  - unfold onClick, withUi.
    destruct H as (Hs & Hf & Hc & Hst & Ht & He & Hg). rewrite Hs.
    destruct (showAdvanced (ui ses)); cbn; auto 10.
  - exact H.
  - unfold resume.
    destruct H as (Hs & (rest & Hf & Hq) & Hc & Hst & Ht & He & Hg).
    rewrite Hf, nextEffect_single.
    destruct k as [| k']; [ | now eauto 10].
    destruct rest as [| e rest']; [now eauto 10 | ].
    inversion Hq as [| ? ? [Hh Hw] Hrest]; subst.
    destruct e; try discriminate; cbn; eauto 10.
Qed.

Lemma unheard_run (calls : nat) ses0 ses (evs : list (@Event V)) :
  (withdrawStarted (ui ses) = true
   /\ (exists rest,
          inFlight ses = [rest]
          /\ Forall (fun x => isHookSetter x = false
                              /\ isStoreTxHash x = false) rest)
   /\ withdrawCalls ses = calls
   /\ store ses = store ses0
   /\ txHash (ui ses) = txHash (ui ses0)
   /\ errorMsg (ui ses) = errorMsg (ui ses0)
   /\ proofGenProgress (ui ses) = proofGenProgress (ui ses0)) ->
  let ses' := run tz config w ses evs in
  withdrawStarted (ui ses') = true
  /\ withdrawCalls ses' = calls
  /\ store ses' = store ses0
  /\ txHash (ui ses') = txHash (ui ses0)
  /\ errorMsg (ui ses') = errorMsg (ui ses0)
  /\ proofGenProgress (ui ses') = proofGenProgress (ui ses0).
Proof.
  cbv zeta. revert ses. induction evs as [| ev evs IH]; intros ses H.
  - cbn. destruct H as (H1 & _ & H2). auto.
  - rewrite run_cons. apply IH. now apply unheard_step.
Qed.

Lemma withdraw_rejected_early (r : DepositRecord) (c : @Web3Context V)
      (conn : V) (e : Exn) :
  connector c = Some conn ->
  (getProvider w conn (chainId config) = inl e
   \/ exists provider,
       getProvider w conn (chainId config) = inr provider
       /\ getBalanceBefore w provider (recipientAddress r) = inl e) ->
  outcome (withdraw w config r c) = inl e
  /\ Forall (fun x => isHookSetter x = false
                      /\ isStoreTxHash x = false /\ isPostApi x = false)
            (trace (withdraw w config r c)).
Proof.
  intros Hc H. unfold withdraw. rewrite Hc.
  destruct H as [Hp | (provider & Hp & Hb)]; rewrite Hp; cbn.
  - split; [reflexivity | ]. repeat constructor.
  - rewrite Hb. cbn. split; [reflexivity | ]. repeat constructor.
Qed.

(** X7: a rejection before the [try] statement is not caught.  When
    [connector.getProvider] rejects, or the first [provider.getBalance]
    does, [withdraw] rejects with the same value without having called a
    hook setter, written the store or posted to the relayer; and after
    the click that called it, whatever happens next in the session,
    [withdrawStarted] stays set, [withdraw] is not called again, and the
    transaction hash, the error message, the progress line and the store
    stay as they were. *)
Theorem rejection_before_try_is_not_caught
        ses (r : DepositRecord) (c : @Web3Context V) (conn : V) (e : Exn)
        (evs : list (@Event V)) :
  connector c = Some conn ->
  (getProvider w conn (chainId config) = inl e
   \/ exists provider,
       getProvider w conn (chainId config) = inr provider
       /\ getBalanceBefore w provider (recipientAddress r) = inl e) ->
  outcome (withdraw w config r c) = inl e
  /\ Forall (fun x => isHookSetter x = false
                      /\ isStoreTxHash x = false /\ isPostApi x = false)
            (trace (withdraw w config r c))
  /\ (withdrawStarted (ui ses) = false ->
      inFlight ses = [] ->
      let ses' := run tz config w (step tz config w ses (ClickWithdraw r c))
                      evs in
      withdrawStarted (ui ses') = true
      /\ withdrawCalls ses' = S (withdrawCalls ses)
      /\ store ses' = store ses
      /\ txHash (ui ses') = txHash (ui ses)
      /\ errorMsg (ui ses') = errorMsg (ui ses)
      /\ proofGenProgress (ui ses') = proofGenProgress (ui ses)).
Proof.
  intros Hc H.
  destruct (withdraw_rejected_early r c conn e Hc H) as (Ho & Ht).
  split; [exact Ho | split; [exact Ht | ]].
  intros Hs Hf. apply unheard_run.
  cbn [step]. unfold onClick, callWithdraw, withUi. rewrite Hs, Hf.
  assert (Hq : Forall (fun x => isHookSetter x = false
                                /\ isStoreTxHash x = false)
                      (trace (withdraw w config r c))).
  { eapply Forall_impl; [ | exact Ht]. cbn. tauto. }
  destruct (showAdvanced (ui ses)); cbn; eauto 10.
Qed.

End UncaughtRejection.

(** ** The further properties at sample inputs *)
Section FurtherInstances.
Import JsDate Expiry.
Local Open Scope string_scope.
Local Open Scope list_scope.

(** A signature that fails its check. *)
Lemma invalid_signature_sample :
  Forall (fun e => isFetchGet e = false /\ isPostApi e = false)
         (trace (tryBlock
                   (FailingSample.world (inr 100%nat) (inr 101%nat) false
                                        (inr 112%nat) true)
                   Sample.config Sample.deposit Sample.connected 100%nat)).
Proof.
  apply (invalid_signature_stops_before_downloads
           (FailingSample.world (inr 100%nat) (inr 101%nat) false
                                (inr 112%nat) true)
           Sample.config Sample.deposit Sample.connected 100%nat
           FailingSample.signed).
  - reflexivity.
  - reflexivity.
Defined.

(** A witness generator that throws a transport error. *)
Lemma witness_failure_sample :
  tryBlock (FailingSample.world (inr 100%nat) (inr 101%nat) true
                                (inl FailingSample.networkError) true)
           Sample.config Sample.deposit Sample.connected 100%nat
  = (trace (signingSteps
              (FailingSample.world (inr 100%nat) (inr 101%nat) true
                                   (inl FailingSample.networkError) true)
              Sample.config Sample.deposit Sample.connected)
       ++ [SetProofGenProgress "Downloading circuit...";
           Network (FetchGet (circuitPath Sample.config));
           Console (LogError FailingSample.networkError);
           Console (LogError (appError WITNESS_GEN_ERROR));
           SetErrorMsg "Could not generate witness."],
     inr tt).
Proof.
  apply (witness_failure_is_reclassified
           (FailingSample.world (inr 100%nat) (inr 101%nat) true
                                (inl FailingSample.networkError) true)
           Sample.config Sample.deposit Sample.connected 100%nat
           FailingSample.signed 115%nat 111%nat FailingSample.networkError).
  - reflexivity.
  - reflexivity.
  - reflexivity.
  - reflexivity.
  - reflexivity.
Defined.

(** A witness that fails its check. *)
Lemma invalid_witness_sample :
  tryBlock (FailingSample.world (inr 100%nat) (inr 101%nat) true
                                (inr 112%nat) false)
           Sample.config Sample.deposit Sample.connected 100%nat
  = (trace (signingSteps
              (FailingSample.world (inr 100%nat) (inr 101%nat) true
                                   (inr 112%nat) false)
              Sample.config Sample.deposit Sample.connected)
       ++ [SetProofGenProgress "Downloading circuit...";
           Network (FetchGet (circuitPath Sample.config));
           Console (LogError (appError INVALID_WITNESS));
           SetErrorMsg "Invalid witness."],
     inr tt).
Proof.
  apply (invalid_witness_stops_before_keys
           (FailingSample.world (inr 100%nat) (inr 101%nat) true
                                (inr 112%nat) false)
           Sample.config Sample.deposit Sample.connected 100%nat
           FailingSample.signed 115%nat 111%nat 112%nat).
  - reflexivity.
  - reflexivity.
  - reflexivity.
  - reflexivity.
  - reflexivity.
  - reflexivity.
Defined.

(** No contract at the expected address. *)
Lemma contract_not_deployed_sample :
  Forall (fun x => calm x = true)
         (trace (tryBlock
                   (FailingSample.world (inr 100%nat)
                      (inl FailingSample.notDeployed) true (inr 112%nat) true)
                   Sample.config Sample.deposit Sample.connected 100%nat)).
Proof.
  apply (failed_step_ends_in_catch
           (FailingSample.world (inr 100%nat)
              (inl FailingSample.notDeployed) true (inr 112%nat) true)
           Sample.config Sample.deposit Sample.connected 100%nat
           FailingSample.notDeployed).
  reflexivity.
Defined.

(** The request of a run that goes through. *)
Lemma request_sample :
  let w := Sample.world (1, 2)%nat 7%nat (1, 2)%nat true (JResult "0xabc") in
  method (mixRequest w 115%nat) = "mixer_mix"
  /\ jsonrpc (mixRequest w 115%nat) = "2.0"
  /\ (postCount (trace (withdraw w Sample.config Sample.deposit
                                 Sample.connected)) <= 1)%nat.
Proof.
  cbv zeta.
  apply (request_follows_verified_proof
           (Sample.world (1, 2)%nat 7%nat (1, 2)%nat true (JResult "0xabc"))
           Sample.config Sample.deposit Sample.connected).
  vm_compute. tauto.
Defined.

(** The error message of a failed signature check ends the run. *)
Lemma error_message_sample :
  let t := trace (withdraw
                    (FailingSample.world (inr 100%nat) (inr 101%nat) false
                                         (inr 112%nat) true)
                    Sample.config Sample.deposit Sample.connected) in
  t = removelast t ++ [SetErrorMsg "Invalid signature."].
Proof.
  cbv zeta.
  apply (proj2 (error_message_ends_the_run
           (FailingSample.world (inr 100%nat) (inr 101%nat) false
                                (inr 112%nat) true)
           Sample.config Sample.deposit Sample.connected)).
  vm_compute. tauto.
Defined.

(** Two codes with one message are one code. *)
Lemma error_messages_sample : INVALID_PROOF = INVALID_PROOF.
Proof.
  apply (proj2 (error_messages_are_distinct Sample.config
                  INVALID_PROOF INVALID_PROOF)).
  reflexivity.
Defined.

(** The hooks after a click, an expiry and a step of the run. *)
Lemma hooks_sample :
  let w := Sample.world (1, 2)%nat 7%nat (1, 2)%nat true (JResult "0xabc") in
  let ses := step (fixedZone 0) Sample.config w
                  (initialSession (V:=nat) 1609516800000 [Sample.deposit])
                  (ClickWithdraw Sample.deposit Sample.connected) in
  withdrawStarted (ui (run (fixedZone 0) Sample.config w ses
                           [Expire; Resume 0; ClickAdvanced])) = true.
Proof.
  cbv zeta.
  apply (hooks_are_never_reset (fixedZone 0) Sample.config
           (Sample.world (1, 2)%nat 7%nat (1, 2)%nat true (JResult "0xabc"))).
  reflexivity.
Defined.

(** A call of [withdraw] by the automatic trigger. *)
Lemma automatic_trigger_sample :
  let evs := [Expire;
              Render (V:=nat) Sample.deposit Sample.connected
                     Sample.zeroTimer] in
  (exists r c, In (ClickWithdraw (V:=nat) r c) evs)
  \/ (In Expire evs
      /\ exists r c timer,
          In (Render r c timer) evs
          /\ midnightOver (fixedZone 0) (timestamp r) 1609516800000 = false
          /\ days timer + hours timer + minutes timer + seconds timer = 0).
Proof.
  cbv zeta.
  apply (withdraw_needs_click_or_expiry (fixedZone 0) Sample.config
           (Sample.world (1, 2)%nat 7%nat (1, 2)%nat true (JResult "0xabc"))
           1609516800000 [Sample.deposit]).
  vm_compute. discriminate.
Defined.

(** A page opened at 01:00 UTC on 2 January 2021 for the deposit of
    1 January. *)
Lemma late_page_sample :
  let w := Sample.world (1, 2)%nat 7%nat (1, 2)%nat true (JResult "0xabc") in
  let ses := run (fixedZone 0) Sample.config w
                 (initialSession 1609549200000 [Sample.deposit])
                 [Expire;
                  Render Sample.deposit Sample.connected Sample.zeroTimer;
                  Resume 0] in
  withdrawCalls ses = 0%nat
  /\ countdownShown (ui ses) true = false
  /\ buttonShown (ui ses) Sample.connected true = true.
Proof.
  cbv zeta.
  apply (late_page_waits_for_click (fixedZone 0) Sample.config
           (Sample.world (1, 2)%nat 7%nat (1, 2)%nat true (JResult "0xabc"))
           1609549200000 [Sample.deposit]
           [Expire;
            Render Sample.deposit Sample.connected Sample.zeroTimer;
            Resume 0]
           Sample.connected).
  - intros r c timer [H | [H | [H | []]]]; try discriminate H.
    injection H as <- _ _. reflexivity.
  - intros r c [H | [H | [H | []]]]; discriminate H.
  - reflexivity.
Defined.

(** A run that goes through, carried out to its end after a click. *)
Lemma page_report_sample :
  let w := Sample.world (1, 2)%nat 7%nat (1, 2)%nat true (JResult "0xabc") in
  let ses := run (fixedZone 0) Sample.config w
                 (initialSession 1609516800000 [Sample.deposit])
                 (ClickWithdraw Sample.deposit Sample.connected
                  :: repeat (Resume 0) 40) in
  In (SetTxHash (txHash (ui ses))) (performed ses)
  /\ exists req, postApi w req = inr (JResult (txHash (ui ses))).
Proof.
  cbv zeta.
  refine (proj1 (page_reports_come_from_the_run (fixedZone 0) Sample.config
           (Sample.world (1, 2)%nat 7%nat (1, 2)%nat true (JResult "0xabc"))
           1609516800000 [Sample.deposit]
           (ClickWithdraw Sample.deposit Sample.connected
            :: repeat (Resume 0) 40)) _).
  vm_compute. reflexivity.
Defined.

(** The page after a click. *)
Lemma announced_sample :
  let w := Sample.world (1, 2)%nat 7%nat (1, 2)%nat true (JResult "0xabc") in
  let ses := run (fixedZone 0) Sample.config w
                 (initialSession 1609516800000 [Sample.deposit])
                 [ClickWithdraw Sample.deposit Sample.connected; Resume 0;
                  Resume 0; Resume 0; Resume 0; Resume 0] in
  expiryTimeShown (ui ses) false = false
  /\ countdownShown (ui ses) false = false
  /\ progressShown (ui ses) false
     = (0 <? String.length (proofGenProgress (ui ses)))%nat.
Proof.
  cbv zeta.
  apply (started_run_is_announced (fixedZone 0) Sample.config
           (Sample.world (1, 2)%nat 7%nat (1, 2)%nat true (JResult "0xabc"))
           1609516800000 [Sample.deposit]).
  reflexivity.
Defined.

(** Two deposits on 1 January 2021, at 15:00 and at 23:59:59 UTC, on a
    US Eastern machine. *)
Lemma same_day_sample :
  midnightExpiry usEastern2021 1609545599000
  = midnightExpiry usEastern2021 1609513200000.
Proof.
  apply (midnight_expiry_and_offsets usEastern2021 1609513200000).
  reflexivity.
Defined.

(** The deposit of 1 January 2021 on a US Eastern machine. *)
Lemma within_a_day_sample :
  1609513200000 < midnightExpiry usEastern2021 1609513200000
                <= 1609513200000 + msPerDay.
Proof.
  apply (midnight_expiry_within_a_day usEastern2021 1609513200000
                                      1609513200000).
  reflexivity.
Defined.



(** A click on a fresh page whose connector cannot give a provider,
    followed by the steps of the run, the expiry, a render and a second
    click. *)
Lemma rejected_click_sample :
  let w := FailingSample.world (inl FailingSample.networkError)
             (inr 101%nat) true (inr 112%nat) true in
  let ses := run (fixedZone 0) Sample.config w
                 (step (fixedZone 0) Sample.config w
                       (initialSession (V:=nat) 1609549200000 [Sample.deposit])
                       (ClickWithdraw Sample.deposit Sample.connected))
                 [Resume 0; Resume 0; Expire;
                  Render Sample.deposit Sample.connected Sample.zeroTimer;
                  ClickWithdraw Sample.deposit Sample.connected] in
  outcome (withdraw w Sample.config Sample.deposit Sample.connected)
  = inl FailingSample.networkError
  /\ withdrawStarted (ui ses) = true
  /\ withdrawCalls ses = 1%nat
  /\ store ses = [Sample.deposit]
  /\ txHash (ui ses) = ""
  /\ errorMsg (ui ses) = ""
  /\ proofGenProgress (ui ses) = "".
Proof.
  cbv zeta.
  split;
    [ refine (proj1 (rejection_before_try_is_not_caught
        (fixedZone 0) Sample.config
        (FailingSample.world (inl FailingSample.networkError)
           (inr 101%nat) true (inr 112%nat) true)
        (initialSession (V:=nat) 1609549200000 [Sample.deposit])
        Sample.deposit Sample.connected 1%nat FailingSample.networkError
        [] _ _))
    | refine (proj2 (proj2 (rejection_before_try_is_not_caught
        (fixedZone 0) Sample.config
        (FailingSample.world (inl FailingSample.networkError)
           (inr 101%nat) true (inr 112%nat) true)
        (initialSession (V:=nat) 1609549200000 [Sample.deposit])
        Sample.deposit Sample.connected 1%nat FailingSample.networkError
        [Resume 0; Resume 0; Expire;
         Render Sample.deposit Sample.connected Sample.zeroTimer;
         ClickWithdraw Sample.deposit Sample.connected] _ _)) _ _) ];
    try reflexivity; left; reflexivity.
Defined.

End FurtherInstances.
